(** * ntfy-to-slack: the subscription loop and the delivery function

    A shallow embedding of [ntfy-to-slack.go].  The program keeps one
    streaming GET open against an ntfy server, decodes the response body
    line by line, and for every [message] event starts [sendToSlack] in a
    goroutine of its own.  [main] restarts the session for ever, thirty
    seconds after each return.

    Go's standard library is not part of the repository.  What the program
    uses of it is either modelled from its documented behaviour
    ([bufio.Scanner], [strconv.FormatInt], [flag.String], [os.LookupEnv])
    or taken as a parameter ([json.Unmarshal], [json.Marshal], the URL
    check of [http.NewRequest], the answer of the network to
    [client.Do]). *)

From Equations Require Import Equations.
From Stdlib Require Import String Ascii List ZArith Arith Lia Bool.
From Stdlib Require Import DecimalString DecimalPos DecimalZ.
Import ListNotations.

Local Open Scope string_scope.

(** ** Values of the Go program *)

(** A Go [error] value.  [errors_New s] is [errors.New(s)]; [extern s] is an
    error value made by a library ([net/http], [encoding/json], [io],
    [bufio]), named by its text. *)
Inductive error : Type :=
| errors_New (s : string)
| extern (s : string).

(** [type ntfyMessage struct] *)
Record ntfyMessage : Type := {
  Id : string;
  Time : Z;
  Event : string;
  Topic : string;
  Title : string;
  Message : string
}.

(** [type slackMessage struct] *)
Record slackMessage : Type := { Text : string }.

(** The package-level pointers ([*string]); [None] is the nil pointer. *)
Record Globals : Type := {
  ntfyDomain : option string;
  ntfyTopic : option string;
  ntfyAuth : option string;
  slackWebhookUrl : option string
}.

Definition version : string := "v1.3 2024-07-04".
Definition upstreamNtfyServer : string := "ntfy.sh".

(** ** net/http values *)

Definition MethodGet : string := "GET".
Definition MethodPost : string := "POST".
Definition StatusOK : Z := 200.

Record Request : Type := {
  Method : string;
  URL : string;
  Header : list (string * string);
  Payload : option string
}.

(** A response body as a reader: the bytes it delivers, the error that
    ends it ([None] is [io.EOF]), whether that error comes in the same
    [Read] as the last bytes (io.Reader allows both), and what [Close]
    returns.  A body is finite: a stream that never ends gives a session
    that never returns, and these bodies are the streams that end. *)
Record Body : Type := {
  content : string;
  readErr : option error;
  errWithData : bool;
  closeErr : option error
}.

Record Response : Type := {
  StatusCode : Z;
  RespBody : Body
}.

Definition Header_Add (h : list (string * string)) (k v : string) :
  list (string * string) :=
  (h ++ [(k, v)])%list.

Definition Header_Set (h : list (string * string)) (k v : string) :
  list (string * string) :=
  (filter (fun kv => negb (fst kv =? k)) h ++ [(k, v)])%list.

Definition withHeader (req : Request) (h : list (string * string)) : Request :=
  {| Method := Method req; URL := URL req; Header := h; Payload := Payload req |}.

(** ** Effects

    What a run does to the outside, in order. *)

Inductive Level : Type := LevelDebug | LevelInfo | LevelWarn | LevelError.

(** The values logged as attributes. *)
Inductive value : Type :=
| VString (s : string)
| VInt (z : Z)
| VError (e : error)
| VBytes (b : string).

Inductive effect : Type :=
| SetLogLevel (l : Level)                 (* slog.SetLogLoggerLevel *)
| Log (l : Level) (msg : string) (attrs : list (string * value))
| ClientDo (req : Request)                (* client.Do(req) *)
| BodyScan                                (* scanner.Scan() on a response body *)
| BodyReadAll                             (* io.ReadAll(resp.Body) *)
| BodyClose                               (* resp.Body.Close() *)
| Spawn (webhook : option slackMessage)   (* go sendToSlack(webhook) *)
| Sleep (d : Z)                           (* time.Sleep(d) *)
| Println (s : string)
| Exit (code : Z).                        (* os.Exit(code) *)

(** A call either returns or panics (a nil pointer dereferenced); either
    way it leaves the effects it had until then. *)
Inductive outcome (A : Type) : Type :=
| Done (a : A)
| Panic (why : string).
Arguments Done {A} a.
Arguments Panic {A} why.

Definition M (A : Type) : Type := (outcome A * list effect)%type.

Definition ret {A : Type} (a : A) : M A := (Done a, []).

Definition bind {A B : Type} (m : M A) (f : A -> M B) : M B :=
  match m with
  | (Done a, t) => let (r, t') := f a in (r, (t ++ t')%list)
  | (Panic w, t) => (Panic w, t)
  end.

Declare Scope go_scope.
Delimit Scope go_scope with go.
Notation "x <- m ;; k" := (bind m (fun x => k))
  (at level 61, m at next level, right associativity) : go_scope.
Notation "m ;; k" := (bind m (fun _ => k))
  (at level 61, right associativity) : go_scope.
Local Open Scope go_scope.

Definition emit (e : effect) : M unit := (Done tt, [e]).

(** [*p] *)
Definition deref {A : Type} (p : option A) : M A :=
  match p with
  | Some a => ret a
  | None => (Panic "invalid memory address or nil pointer dereference", [])
  end.

Definition result {A : Type} (m : M A) : outcome A := fst m.
Definition effects {A : Type} (m : M A) : list effect := snd m.

Definition slog_Debug (msg : string) (attrs : list (string * value)) : M unit :=
  emit (Log LevelDebug msg attrs).
Definition slog_Info (msg : string) (attrs : list (string * value)) : M unit :=
  emit (Log LevelInfo msg attrs).
Definition slog_Warn (msg : string) (attrs : list (string * value)) : M unit :=
  emit (Log LevelWarn msg attrs).
Definition slog_Error (msg : string) (attrs : list (string * value)) : M unit :=
  emit (Log LevelError msg attrs).

(** [client.Do(req)]: the request goes out and the network answers. *)
Definition client_Do (net : Request -> error + Response) (req : Request) :
  M (error + Response) :=
  emit (ClientDo req) ;; ret (net req).

(** [strconv.FormatInt(i, 10)] *)
Definition FormatInt (i : Z) : string := NilZero.string_of_int (Z.to_int i).

(** [time.Second], in nanoseconds. *)
Definition Second : Z := 1000000000.

(** ** bufio: ScanLines and the Scanner

    [bufio] is Go's library.  [ScanLines] and [dropCR] are written as the
    library has them; the scanner keeps what decides which tokens [Scan]
    yields and when it gives up, and leaves out how the buffer is filled
    and grown. *)

Definition LF : ascii := "010"%char.
Definition CR : ascii := "013"%char.

(** [bytes.IndexByte(data, c)] *)
Fixpoint IndexByte (data : string) (c : ascii) : option nat :=
  match data with
  | EmptyString => None
  | String a rest =>
      if Ascii.eqb a c then Some 0 else option_map S (IndexByte rest c)
  end.

(** [data[0:n]] and [data[n:]] *)
Fixpoint takeBytes (n : nat) (data : string) : string :=
  match n, data with
  | S k, String a rest => String a (takeBytes k rest)
  | _, _ => EmptyString
  end.

Fixpoint dropBytes (n : nat) (data : string) : string :=
  match n, data with
  | S k, String _ rest => dropBytes k rest
  | _, _ => data
  end.

(** [bufio.dropCR]: drops one trailing carriage return. *)
Fixpoint dropCR (data : string) : string :=
  match data with
  | EmptyString => EmptyString
  | String a EmptyString => if Ascii.eqb a CR then EmptyString else data
  | String a rest => String a (dropCR rest)
  end.

(** [bufio.ScanLines(data, atEOF)]: how far to advance and the token, if
    there is one. *)
Definition ScanLines (data : string) (atEOF : bool) : nat * option string :=
  if atEOF && (String.length data =? 0)%nat then (0, None)
  else
    match IndexByte data LF with
    | Some i => (i + 1, Some (dropCR (takeBytes i data)))
    | None =>
        if atEOF then (String.length data, Some (dropCR data)) else (0, None)
    end.

(** [bufio.MaxScanTokenSize] *)
Definition MaxScanTokenSize : nat := 64 * 1024.

Definition ErrTooLong : error := extern "bufio.Scanner: token too long".

(** A [bufio.Scanner] over a response body.  The reader and the buffer are
    one field here: [unread] is every byte from the start of the next
    token to the end of the stream.  The buffer shows the split function
    at most [maxTokenSize] of them. *)
Record Scanner : Type := {
  unread : string;
  srcErr : option error;
  srcErrWithData : bool;
  maxTokenSize : nat;
  token : string;
  scanErr : option error
}.

(** [bufio.NewScanner(r)] *)
Definition NewScanner (r : Body) : Scanner :=
  {| unread := content r;
     srcErr := readErr r;
     srcErrWithData := errWithData r;
     maxTokenSize := MaxScanTokenSize;
     token := EmptyString;
     scanErr := None |}.

Definition yield (s : Scanner) (advance : nat) (tok : string) : Scanner :=
  {| unread := dropBytes advance (unread s);
     srcErr := srcErr s;
     srcErrWithData := srcErrWithData s;
     maxTokenSize := maxTokenSize s;
     token := tok;
     scanErr := scanErr s |}.

Definition stop (s : Scanner) (e : option error) : Scanner :=
  {| unread := unread s;
     srcErr := srcErr s;
     srcErrWithData := srcErrWithData s;
     maxTokenSize := maxTokenSize s;
     token := EmptyString;
     scanErr := e |}.

(** Whether the scanner gets to see the reader's error while the rest of
    the stream sits in its buffer: the rest is shorter than the buffer may
    grow, or fills it exactly and the error came along with the last
    bytes. *)
Definition seesEnd (s : Scanner) : bool :=
  (String.length (unread s) <? maxTokenSize s)%nat
  || ((String.length (unread s) =? maxTokenSize s)%nat && srcErrWithData s).

(** [Scanner.Scan] with the split function [ScanLines], up to the first
    time it returns false (the program calls it no more after that).  A
    line whose newline is within the buffer is a token; without one, the
    rest of the stream is the last token if the scanner sees the end of
    the stream, and the buffer is full otherwise: [ErrTooLong]. *)
Definition Scan (s : Scanner) : bool * Scanner :=
  match ScanLines (takeBytes (maxTokenSize s) (unread s)) false with
  | (advance, Some tok) => (true, yield s advance tok)
  | (_, None) =>
      if seesEnd s then
        match ScanLines (unread s) true with
        | (advance, Some tok) => (true, yield s advance tok)
        | (_, None) => (false, stop s (srcErr s))
        end
      else (false, stop s (Some ErrTooLong))
  end.

(** [scanner.Text()] *)
Definition ScannerText (s : Scanner) : string := token s.

(** [scanner.Err()] *)
Definition ScannerErr (s : Scanner) : option error := scanErr s.

(** *** Termination of the read loop

    What the scanner still has to read gets shorter with every token. *)

Definition inspect {A : Type} (a : A) : {b : A | a = b} := exist _ a eq_refl.

Lemma ScanLines_advance data atEOF advance tok :
  ScanLines data atEOF = (advance, Some tok) ->
  1 <= advance /\ data <> EmptyString.
Proof.
  unfold ScanLines.
  destruct (atEOF && (String.length data =? 0)%nat) eqn:E0; [discriminate|].
  destruct (IndexByte data LF) as [i|] eqn:Ei.
  - intros H; inversion H; subst. split; [lia|].
    intros ->. discriminate.
  - destruct atEOF; [|discriminate].
    intros H; inversion H; subst.
    destruct data; simpl in *; [discriminate|].
    split; [lia|discriminate].
Qed.

Lemma dropBytes_shorter n data :
  1 <= n -> data <> EmptyString ->
  String.length (dropBytes n data) < String.length data.
Proof.
  intros Hn Hd. destruct n as [|n]; [lia|].
  destruct data as [|a rest]; [congruence|]. simpl.
  clear. revert rest. induction n as [|n IH]; intros rest; simpl.
  - destruct rest; simpl; lia.
  - destruct rest as [|b rest]; simpl; [lia|].
    specialize (IH rest). destruct n; simpl in *; lia.
Qed.

Lemma takeBytes_empty n data :
  takeBytes n data <> EmptyString -> data <> EmptyString.
Proof. destruct n, data; simpl; congruence. Qed.

Lemma Scan_shorter s s' :
  Scan s = (true, s') ->
  String.length (unread s') < String.length (unread s).
Proof.
  unfold Scan.
  destruct (ScanLines (takeBytes (maxTokenSize s) (unread s)) false)
    as [adv [tok|]] eqn:E1.
  - intros H; inversion H; subst; simpl.
    apply ScanLines_advance in E1 as [Ha Hd].
    apply dropBytes_shorter; [exact Ha|].
    eapply takeBytes_empty; exact Hd.
  - destruct (seesEnd s); [|discriminate].
    destruct (ScanLines (unread s) true) as [adv2 [tok|]] eqn:E2; [|discriminate].
    intros H; inversion H; subst; simpl.
    apply ScanLines_advance in E2 as [Ha Hd].
    apply dropBytes_shorter; assumption.
Qed.

(** ** The program *)

(** The library calls whose answers the program takes as they come. *)
Class Library : Type := {
  (** [json.Unmarshal([]byte(text), &msg)]: the error, or the decoded
      message. *)
  json_Unmarshal : string -> error + ntfyMessage;
  (** [json.Marshal(webhook)] *)
  json_Marshal : slackMessage -> error + string;
  (** The error [http.NewRequest] has for a URL it cannot parse. *)
  urlError : string -> option error
}.

(** The process as started: the environment, the string flags given on
    the command line as [flag.Parse] reads them, and the [-v] flag.  (A
    command line that [flag.Parse] refuses ends the process there.) *)
Record Process : Type := {
  LookupEnv : string -> option string;
  flagValue : string -> option string;
  flagV : bool
}.

(** [flag.String(name, value, usage)] after [flag.Parse()]: a pointer,
    never nil, to the value given on the command line or else to the
    default. *)
Definition flag_String (p : Process) (name value : string) : option string :=
  Some match flagValue p name with
       | Some v => v
       | None => value
       end.

(** [v, _ := os.LookupEnv(key)] *)
Definition envOrEmpty (p : Process) (key : string) : string :=
  match LookupEnv p key with
  | Some v => v
  | None => EmptyString
  end.

Section Program.

Context {lib : Library}.

(** [http.NewRequest(method, url, body)] *)
Definition http_NewRequest (method url : string) (body : option string) :
  error + Request :=
  match urlError url with
  | Some err => inl err
  | None => inr {| Method := method; URL := url; Header := []; Payload := body |}
  end.

(** [go sendToSlack(webhook)]: the goroutine is started and the caller
    goes on; what it returns is dropped. *)
Definition go_sendToSlack (webhook : option slackMessage) : M unit :=
  emit (Spawn webhook).

(** The body of the [for scanner.Scan()] loop of [waitForNtfyMessage], for
    one line of text. *)
Definition loopBody (domain : string) (text : string) : M unit :=
  match json_Unmarshal text with
  | inl err =>
      slog_Error "error while processing ntfy message"
        [("err", VError err); ("text", VString text)]
  | inr msg =>
      if Event msg =? "open" then
        slog_Info "subscription established" [("domain", VString domain)]
      else if Event msg =? "keepalive" then
        slog_Debug "keepalive" []
      else if Event msg =? "message" then
        slog_Info "sending message"
          [("title", VString (Title msg)); ("message", VString (Message msg))] ;;
        if negb (Title msg =? "") then
          go_sendToSlack
            (Some {| Text := "**" ++ Title msg ++ "**: " ++ Message msg |})
        else
          go_sendToSlack (Some {| Text := Message msg |})
      else
        slog_Warn "bad message received" [("message", VString text)]
  end.

(** The effects of one turn of that loop: the call of [Scan] and the body. *)
Definition lineEffects (domain text : string) : list effect :=
  BodyScan :: effects (loopBody domain text).

(** [for scanner.Scan() { ... }]; returns the scanner as the loop leaves
    it. *)
Equations? forScan (domain : string) (s : Scanner) : M Scanner
  by wf (String.length (unread s)) lt :=
  forScan domain s with inspect (Scan s) := {
    | exist _ (true, s') _ :=
        bind (emit BodyScan) (fun _ =>
        bind (loopBody domain (ScannerText s')) (fun _ =>
        forScan domain s'));
    | exist _ (false, s') _ :=
        bind (emit BodyScan) (fun _ => ret s') }.
Proof. apply Scan_shorter; assumption. Qed.

(** Every token the loop is given, in order, and the scanner as the loop
    leaves it. *)
Equations? scanAll (s : Scanner) : list string * Scanner
  by wf (String.length (unread s)) lt :=
  scanAll s with inspect (Scan s) := {
    | exist _ (true, s') _ :=
        (ScannerText s' :: fst (scanAll s'), snd (scanAll s'));
    | exist _ (false, s') _ := ([], s') }.
Proof. all: apply Scan_shorter; assumption. Qed.

(** [func waitForNtfyMessage() error] *)
Definition waitForNtfyMessage (g : Globals)
  (net : Request -> error + Response) : M (option error) :=
  domain <- deref (ntfyDomain g) ;;
  topic <- deref (ntfyTopic g) ;;
  match http_NewRequest MethodGet ("https://" ++ domain ++ "/" ++ topic ++ "/json") None with
  | inl err =>
      slog_Error "error getting ntfy response" [("err", VError err)] ;;
      ret (Some err)
  | inr req =>
      let req :=
        match ntfyAuth g with
        | Some auth =>
            withHeader req (Header_Add (Header req) "Authorization" ("Bearer " ++ auth))
        | None => req
        end in
      r <- client_Do net req ;;
      match r with
      | inl err =>
          slog_Error "error connecting to ntfy server" [("err", VError err)] ;;
          ret (Some err)
      | inr resp =>
          if negb (StatusCode resp =? StatusOK)%Z then
            slog_Error "invalid status code"
              [("expected", VInt StatusOK); ("domain", VString domain);
               ("statusCode", VString (FormatInt (StatusCode resp)))] ;;
            ret (Some (errors_New "invalid response code from ntfy"))
          else
            forScan domain (NewScanner (RespBody resp)) ;;
            emit BodyClose ;;
            ret None
      end
  end.

(** [io.ReadAll(resp.Body)] *)
Definition io_ReadAll (b : Body) : M (error + string) :=
  emit BodyReadAll ;;
  ret match readErr b with
      | Some err => inl err
      | None => inr (content b)
      end.

(** The deferred function of [sendToSlack]. *)
Definition closeBody (b : Body) : M unit :=
  emit BodyClose ;;
  match closeErr b with
  | Some err => slog_Error "error closing response body" [("err", VError err)]
  | None => ret tt
  end.

(** [func sendToSlack(webhook *slackMessage) error] *)
Definition sendToSlack (g : Globals) (net : Request -> error + Response)
  (webhook : option slackMessage) : M (option error) :=
  match webhook with
  | None => ret (Some (errors_New "webhook undefined"))
  | Some w =>
      match json_Marshal w with
      | inl err => ret (Some err)
      | inr jsonBytes =>
          url <- deref (slackWebhookUrl g) ;;
          match http_NewRequest MethodPost url (Some jsonBytes) with
          | inl err => ret (Some err)
          | inr req =>
              let req :=
                withHeader req
                  (Header_Set (Header req) "Content-Type" "application/json") in
              r <- client_Do net req ;;
              match r with
              | inl err => ret (Some err)
              | inr resp =>
                  res <-
                    (body <- io_ReadAll (RespBody resp) ;;
                     match body with
                     | inl err =>
                         slog_Error "error parsing body" [("err", VError err)] ;;
                         ret (Some err)
                     | inr body =>
                         slog_Debug "slack response"
                           [("status", VInt (StatusCode resp)); ("body", VBytes body)] ;;
                         if (400 <=? StatusCode resp)%Z then
                           ret (Some (errors_New
                                  ("error status code " ++ FormatInt (StatusCode resp))))
                         else ret None
                     end) ;;
                  closeBody (RespBody resp) ;;
                  ret res
              end
          end
      end
  end.

(** The level [main] gives the logger. *)
Definition logLevel (p : Process) : Level :=
  match LookupEnv p "LOG_LEVEL" with
  | Some l =>
      if l =? "debug" then LevelDebug
      else if l =? "warn" then LevelWarn
      else if l =? "error" then LevelError
      else LevelInfo
  | None => LevelInfo
  end.

(** The package-level pointers as [main] leaves them before its loop. *)
Definition globals (p : Process) : Globals :=
  let defaultNtfyDomain :=
    match LookupEnv p "NTFY_DOMAIN" with
    | Some envNtfyDomain => envNtfyDomain
    | None => upstreamNtfyServer
    end in
  let envNtfyTopic := envOrEmpty p "NTFY_TOPIC" in
  let envNtfyAuth := envOrEmpty p "NTFY_AUTH" in
  let envSlackWebhookUrl := envOrEmpty p "SLACK_WEBHOOK_URL" in
  {| ntfyDomain := flag_String p "ntfy-domain" defaultNtfyDomain;
     ntfyTopic := flag_String p "ntfy-topic" envNtfyTopic;
     ntfyAuth := flag_String p "ntfy-auth" envNtfyAuth;
     slackWebhookUrl := flag_String p "slack-webhook" envSlackWebhookUrl |}.

(** One turn of the [for] loop of [main]; [net] is what the network
    answers during this session. *)
Definition iteration (g : Globals) (net : Request -> error + Response) : M unit :=
  err <- waitForNtfyMessage g net ;;
  match err with
  | Some err => slog_Error "waitForNtfyMessage" [("err", VError err)]
  | None => slog_Info "connection closed, restarting" []
  end ;;
  emit (Sleep (30 * Second)).

(** The first [n] turns of [for { ... }], the sessions numbered from [i];
    [net j] is the network during session [j]. *)
Fixpoint forever (n : nat) (g : Globals)
  (net : nat -> Request -> error + Response) (i : nat) : M unit :=
  match n with
  | 0 => ret tt
  | S n' => iteration g (net i) ;; forever n' g net (S i)
  end.

(** Where [main] is after a run. *)
Inductive status : Type :=
| Exited (code : Z)
| InLoop (turns : nat).

(** [func main()], followed through the first [n] turns of its loop. *)
Definition main (p : Process) (net : nat -> Request -> error + Response)
  (n : nat) : M status :=
  emit (SetLogLevel (logLevel p)) ;;
  let g := globals p in
  if flagV p then
    emit (Println version) ;;
    emit (Exit 0) ;;
    ret (Exited 0)
  else
    forever n g net 0 ;;
    ret (InLoop n).

End Program.

(** ** Reading a run *)

(** The posts handed to [go sendToSlack], in order. *)
Fixpoint spawned (t : list effect) : list (option slackMessage) :=
  match t with
  | [] => []
  | Spawn webhook :: t' => webhook :: spawned t'
  | _ :: t' => spawned t'
  end.

(** The sleeps of a run, in order. *)
Fixpoint sleeps (t : list effect) : list Z :=
  match t with
  | [] => []
  | Sleep d :: t' => d :: sleeps t'
  | _ :: t' => sleeps t'
  end.

(** Whether an effect is a read of a response body. *)
Definition readsBody (e : effect) : bool :=
  match e with
  | BodyScan | BodyReadAll => true
  | _ => false
  end.

(** The text of the post for a message event, in the words of the
    specification: the title between double asterisks, a colon, a space
    and the body when there is a title, the body alone otherwise. *)
Definition postText (msg : ntfyMessage) : string :=
  match Title msg with
  | EmptyString => Message msg
  | title => "**" ++ title ++ "**: " ++ Message msg
  end.

(** The record [main] logs for what a session returned. *)
Definition outcomeLog (err : option error) : effect :=
  match err with
  | Some err => Log LevelError "waitForNtfyMessage" [("err", VError err)]
  | None => Log LevelInfo "connection closed, restarting" []
  end.

(** The request of a subscription to [topic] on [domain], in the words of
    the specification: a GET of https://{host}/{topic}/json, with the
    header Authorization: Bearer {credential} when there is a credential. *)
Definition subscription (domain topic : string) (auth : option string) : Request :=
  {| Method := "GET";
     URL := "https://" ++ domain ++ "/" ++ topic ++ "/json";
     Header := match auth with
               | Some credential => [("Authorization", "Bearer " ++ credential)]
               | None => []
               end;
     Payload := None |}.

(** Lines of a stream, each ended by a newline. *)
Definition newline : string := String LF EmptyString.

Fixpoint joinLines (ls : list string) : string :=
  match ls with
  | [] => EmptyString
  | l :: ls' => l ++ newline ++ joinLines ls'
  end.

(** A body with another read error. *)
Definition withReadErr (b : Body) (e : option error) : Body :=
  {| content := content b;
     readErr := e;
     errWithData := errWithData b;
     closeErr := closeErr b |}.

(** Two scanners over the same bytes, with the same limit, that see the
    end of the stream alike. *)
Definition sameStream (s1 s2 : Scanner) : Prop :=
  unread s1 = unread s2 /\
  maxTokenSize s1 = maxTokenSize s2 /\
  srcErrWithData s1 = srcErrWithData s2.

(** The status code an error of [sendToSlack] names, if it names one. *)
Definition statusOfError (e : error) : option Z :=
  match e with
  | errors_New s =>
      if String.prefix "error status code " s then
        option_map Z.of_int
          (NilZero.int_of_string (dropBytes (String.length "error status code ") s))
      else None
  | extern _ => None
  end.

(** The requests of a run, in order. *)
Fixpoint requests (t : list effect) : list Request :=
  match t with
  | [] => []
  | ClientDo req :: t' => req :: requests t'
  | _ :: t' => requests t'
  end.

(** How often a run closes a response body, and how often it calls
    [Scan]. *)
Fixpoint closes (t : list effect) : nat :=
  match t with
  | [] => 0
  | BodyClose :: t' => S (closes t')
  | _ :: t' => closes t'
  end.

Fixpoint scans (t : list effect) : nat :=
  match t with
  | [] => 0
  | BodyScan :: t' => S (scans t')
  | _ :: t' => scans t'
  end.

(** The exit codes of a run. *)
Fixpoint exits (t : list effect) : list Z :=
  match t with
  | [] => []
  | Exit code :: t' => code :: exits t'
  | _ :: t' => exits t'
  end.

(** A setting of the process: the flag if it is given, else the
    environment variable if it is set, else the fallback. *)
Definition setting (p : Process) (flagName envName fallback : string) : string :=
  match flagValue p flagName with
  | Some v => v
  | None =>
      match LookupEnv p envName with
      | Some v => v
      | None => fallback
      end
  end.

(** A body with another answer to [Close]. *)
Definition withCloseErr (b : Body) (e : option error) : Body :=
  {| content := content b;
     readErr := readErr b;
     errWithData := errWithData b;
     closeErr := e |}.

Section Decoding.

Context {lib : Library}.

(** Whether a line decodes to a message event. *)
Definition isMessage (text : string) : bool :=
  match json_Unmarshal text with
  | inr msg => Event msg =? "message"
  | inl _ => false
  end.

(** The posts a line asks for: one for a message event, none for
    anything else. *)
Definition dispatchOf (text : string) : list (option slackMessage) :=
  match json_Unmarshal text with
  | inr msg =>
      if Event msg =? "message" then [Some {| Text := postText msg |}] else []
  | inl _ => []
  end.

End Decoding.

(** ** Sample inputs

    The lines of the scenarios of the specification, and what
    [json.Unmarshal] makes of them. *)

Definition dq : string := String "034"%char EmptyString.

Definition jstr (s : string) : string := dq ++ s ++ dq.

Definition jfield (k v : string) : string := jstr k ++ ":" ++ v.

Definition lineAlert : string :=
  "{" ++ jfield "id" (jstr "1") ++ "," ++ jfield "time" "1000" ++ ","
  ++ jfield "event" (jstr "message") ++ "," ++ jfield "topic" (jstr "t") ++ ","
  ++ jfield "title" (jstr "Alert") ++ "," ++ jfield "message" (jstr "disk full")
  ++ "}".

Definition linePing : string :=
  "{" ++ jfield "id" (jstr "2") ++ "," ++ jfield "time" "1001" ++ ","
  ++ jfield "event" (jstr "message") ++ "," ++ jfield "topic" (jstr "t") ++ ","
  ++ jfield "message" (jstr "ping") ++ "}".

Definition lineKeepalive : string := "{" ++ jfield "event" (jstr "keepalive") ++ "}".

Definition lineOpen : string := "{" ++ jfield "event" (jstr "open") ++ "}".

Definition linePoll : string := "{" ++ jfield "event" (jstr "poll_request") ++ "}".

Definition lineBroken : string := "{" ++ jstr "event" ++ ":".

Definition eventOnly (kind : string) : ntfyMessage :=
  {| Id := ""; Time := 0; Event := kind; Topic := ""; Title := ""; Message := "" |}.

Definition msgAlert : ntfyMessage :=
  {| Id := "1"; Time := 1000; Event := "message"; Topic := "t";
     Title := "Alert"; Message := "disk full" |}.

Definition msgPing : ntfyMessage :=
  {| Id := "2"; Time := 1001; Event := "message"; Topic := "t";
     Title := ""; Message := "ping" |}.

Definition sampleUnmarshal (text : string) : error + ntfyMessage :=
  if text =? lineAlert then inr msgAlert
  else if text =? linePing then inr msgPing
  else if text =? lineKeepalive then inr (eventOnly "keepalive")
  else if text =? lineOpen then inr (eventOnly "open")
  else if text =? linePoll then inr (eventOnly "poll_request")
  else inl (extern "unexpected end of JSON input").

Definition sampleLibrary : Library :=
  {| json_Unmarshal := sampleUnmarshal;
     json_Marshal := fun w => inr ("{" ++ jfield "text" (jstr (Text w)) ++ "}");
     urlError := fun _ => None |}.

Definition sampleGlobals : Globals :=
  {| ntfyDomain := Some "ntfy.sh";
     ntfyTopic := Some "t";
     ntfyAuth := Some "";
     slackWebhookUrl := Some "https://hooks.example/services/T0/B0/X0" |}.

(** A process started with a topic and a webhook and nothing else. *)
Definition sampleProcess : Process :=
  {| LookupEnv := fun key =>
       if key =? "NTFY_TOPIC" then Some "t"
       else if key =? "SLACK_WEBHOOK_URL"
            then Some "https://hooks.example/services/T0/B0/X0"
       else None;
     flagValue := fun _ => None;
     flagV := false |}.

(** A body that delivers [data] and then ends at [io.EOF]. *)
Definition streamOf (data : string) : Body :=
  {| content := data; readErr := None; errWithData := false; closeErr := None |}.

(** A body whose stream breaks after [data]. *)
Definition brokenStream (data : string) : Body :=
  {| content := data;
     readErr := Some (extern "unexpected EOF");
     errWithData := false;
     closeErr := None |}.

(** A network that answers every request with the same status and body. *)
Definition answer (code : Z) (b : Body) : Request -> error + Response :=
  fun _ => inr {| StatusCode := code; RespBody := b |}.

(** A network that cannot be reached. *)
Definition unreachable : Request -> error + Response :=
  fun _ => inl (extern "dial tcp: connection refused").

(** A 200 response that streams [data]. *)
Definition streaming (data : string) : Response :=
  {| StatusCode := 200; RespBody := streamOf data |}.

(** [n] bytes without a newline. *)
Fixpoint filler (n : nat) : string :=
  match n with
  | 0 => EmptyString
  | S k => String "a"%char (filler k)
  end.

(** Scenario F: a broken line between two messages. *)
Definition scenarioF : string := joinLines [lineAlert; lineBroken; linePing].

(** An acknowledgement, a keepalive, an event of a kind the program does
    not know, and a message. *)
Definition quietStream : string :=
  joinLines [lineOpen; lineKeepalive; linePoll; linePing].

(** A message, a line of 65537 bytes, and a message after it. *)
Definition oversized : string :=
  joinLines [lineAlert] ++ filler (S MaxScanTokenSize) ++ newline ++ linePing ++ newline.

(** Sessions that are refused and sessions that stream, in turn. *)
Definition flaky (i : nat) : Request -> error + Response :=
  if Nat.even i then answer 401 (streamOf "") else answer 200 (streamOf scenarioF).

(** A library whose URL parser refuses a space in a URL. *)
Definition strictLibrary : Library :=
  {| json_Unmarshal := sampleUnmarshal;
     json_Marshal := fun w => inr ("{" ++ jfield "text" (jstr (Text w)) ++ "}");
     urlError := fun url =>
       match IndexByte url " "%char with
       | Some _ => Some (extern "parse: invalid character in host name")
       | None => None
       end |}.

(** Pointers as a process started with [-ntfy-domain "ntfy sh"] has them. *)
Definition spacedGlobals : Globals :=
  {| ntfyDomain := Some "ntfy sh";
     ntfyTopic := Some "t";
     ntfyAuth := Some "";
     slackWebhookUrl := Some "https://hooks.example/services/T0/B0/X0" |}.

(** A process with a topic in the environment and another on the command
    line. *)
Definition flaggedProcess : Process :=
  {| LookupEnv := fun key =>
       if key =? "NTFY_TOPIC" then Some "t"
       else if key =? "NTFY_AUTH" then Some "tk_secret"
       else None;
     flagValue := fun name => if name =? "ntfy-topic" then Some "alerts" else None;
     flagV := false |}.


(** A body that reads well and whose [Close] fails. *)
Definition stuckBody (data : string) : Body :=
  {| content := data; readErr := None; errWithData := false;
     closeErr := Some (extern "close: connection reset by peer") |}.

(** Two lines ended by CR LF and a last line without a newline. *)
Definition windowsStream : string :=
  joinLines [lineAlert ++ String CR EmptyString;
             lineKeepalive ++ String CR EmptyString] ++ linePing.

(** ** Properties *)

Section Properties.

Context {lib : Library}.

(** *** The monad *)

Lemma bind_Done {A B : Type} (a : A) (t : list effect) (f : A -> M B) :
  bind (Done a, t) f = (fst (f a), (t ++ snd (f a))%list).
Proof. unfold bind. destruct (f a); reflexivity. Qed.

Lemma bind_ret_l {A B : Type} (a : A) (f : A -> M B) : bind (ret a) f = f a.
Proof. unfold ret, bind. destruct (f a); reflexivity. Qed.

Lemma bind_result {A B : Type} (m : M A) (f : A -> M B) (a : A) :
  result m = Done a ->
  bind m f = (result (f a), (effects m ++ effects (f a))%list).
Proof.
  destruct m as [r t]. unfold result, effects. simpl. intros ->.
  apply bind_Done.
Qed.

Lemma spawned_app (t u : list effect) :
  spawned (t ++ u) = (spawned t ++ spawned u)%list.
Proof.
  induction t as [|e t IH]; simpl; [reflexivity|].
  destruct e; simpl; rewrite IH; reflexivity.
Qed.

Lemma sleeps_app (t u : list effect) :
  sleeps (t ++ u) = (sleeps t ++ sleeps u)%list.
Proof.
  induction t as [|e t IH]; simpl; [reflexivity|].
  destruct e; simpl; rewrite IH; reflexivity.
Qed.

Lemma client_Do_eq (net : Request -> error + Response) (req : Request) :
  client_Do net req = (Done (net req), [ClientDo req]).
Proof. reflexivity. Qed.

(** *** The read loop *)

Lemma forScan_step (domain : string) (s : Scanner) :
  forScan domain s =
  match Scan s with
  | (true, s') =>
      emit BodyScan ;; loopBody domain (ScannerText s') ;; forScan domain s'
  | (false, s') => emit BodyScan ;; ret s'
  end.
Proof.
  rewrite forScan_equation_1.
  destruct (inspect (Scan s)) as [[[|] s'] E];
    simp forScan; rewrite E, <- ?forScan_equation_1; reflexivity.
Qed.

Lemma scanAll_step (s : Scanner) :
  scanAll s =
  match Scan s with
  | (true, s') => (ScannerText s' :: fst (scanAll s'), snd (scanAll s'))
  | (false, s') => ([], s')
  end.
Proof.
  rewrite scanAll_equation_1.
  destruct (inspect (Scan s)) as [[[|] s'] E];
    simp scanAll; rewrite E, <- ?scanAll_equation_1; reflexivity.
Qed.

(** The loop body always returns: every branch ends in [continue]. *)
Lemma loopBody_returns (domain text : string) :
  result (loopBody domain text) = Done tt.
Proof.
  unfold loopBody.
  destruct (json_Unmarshal text) as [err|msg]; [reflexivity|].
  destruct (Event msg =? "open"); [reflexivity|].
  destruct (Event msg =? "keepalive"); [reflexivity|].
  destruct (Event msg =? "message"); [|reflexivity].
  destruct (negb (Title msg =? "")); reflexivity.
Qed.

(** The loop handles every token the scanner yields, one after the other,
    and leaves when [Scan] returns false. *)
Lemma forScan_scanAll (domain : string) (s : Scanner) :
  forScan domain s =
  (Done (snd (scanAll s)),
   (flat_map (lineEffects domain) (fst (scanAll s)) ++ [BodyScan])%list).
Proof.
  remember (String.length (unread s)) as n eqn:Hn.
  revert s Hn. induction n as [n IH] using lt_wf_ind. intros s Hn.
  rewrite forScan_step, scanAll_step.
  destruct (Scan s) as [[|] s'] eqn:E; [|reflexivity].
  apply Scan_shorter in E.
  unfold emit. rewrite bind_Done.
  rewrite (bind_result _ _ tt (loopBody_returns domain (ScannerText s'))).
  rewrite (IH (String.length (unread s'))) by (subst; assumption || reflexivity).
  simpl. unfold lineEffects. rewrite <- app_assoc. reflexivity.
Qed.

(** *** One session *)

Section Session.

Variables (g : Globals) (net : Request -> error + Response).
Variables (domain topic : string).

Hypothesis Hdomain : ntfyDomain g = Some domain.
Hypothesis Htopic : ntfyTopic g = Some topic.

Let req : Request := subscription domain topic (ntfyAuth g).

(** The request a session builds. *)
Lemma session_start :
  waitForNtfyMessage g net =
  match urlError (URL req) with
  | Some err =>
      (Done (Some err),
       [Log LevelError "error getting ntfy response" [("err", VError err)]])
  | None =>
      r <- client_Do net req ;;
      match r with
      | inl err =>
          slog_Error "error connecting to ntfy server" [("err", VError err)] ;;
          ret (Some err)
      | inr resp =>
          if negb (StatusCode resp =? StatusOK)%Z then
            slog_Error "invalid status code"
              [("expected", VInt StatusOK); ("domain", VString domain);
               ("statusCode", VString (FormatInt (StatusCode resp)))] ;;
            ret (Some (errors_New "invalid response code from ntfy"))
          else
            forScan domain (NewScanner (RespBody resp)) ;;
            emit BodyClose ;;
            ret None
      end
  end.
Proof.
  unfold waitForNtfyMessage. rewrite Hdomain, Htopic.
  unfold deref. rewrite !bind_ret_l.
  unfold http_NewRequest, req, subscription. cbn [URL].
  destruct (urlError ("https://" ++ domain ++ "/" ++ topic ++ "/json")) as [err|];
    [reflexivity|].
  destruct (ntfyAuth g) as [auth|]; reflexivity.
Qed.

(** The URL is refused: nothing is sent. *)
Lemma session_bad_url (err : error) :
  urlError (URL req) = Some err ->
  waitForNtfyMessage g net =
  (Done (Some err),
   [Log LevelError "error getting ntfy response" [("err", VError err)]]).
Proof. intros H. rewrite session_start, H. reflexivity. Qed.

(** The server cannot be reached. *)
Lemma session_unreachable (err : error) :
  urlError (URL req) = None ->
  net req = inl err ->
  waitForNtfyMessage g net =
  (Done (Some err),
   [ClientDo req;
    Log LevelError "error connecting to ntfy server" [("err", VError err)]]).
Proof.
  intros Hu Hn. rewrite session_start, Hu.
  rewrite client_Do_eq, bind_Done, Hn. reflexivity.
Qed.

(** The server answers with another status than 200. *)
Lemma session_refused (resp : Response) :
  urlError (URL req) = None ->
  net req = inr resp ->
  StatusCode resp <> StatusOK ->
  waitForNtfyMessage g net =
  (Done (Some (errors_New "invalid response code from ntfy")),
   [ClientDo req;
    Log LevelError "invalid status code"
      [("expected", VInt StatusOK); ("domain", VString domain);
       ("statusCode", VString (FormatInt (StatusCode resp)))]]).
Proof.
  intros Hu Hn Hs. rewrite session_start, Hu.
  rewrite client_Do_eq, bind_Done, Hn. cbv beta iota.
  apply Z.eqb_neq in Hs. rewrite Hs. reflexivity.
Qed.

(** The server answers 200: the body is read to the end of the loop and
    closed, and the session returns nil. *)
Lemma session_streams (resp : Response) :
  urlError (URL req) = None ->
  net req = inr resp ->
  StatusCode resp = StatusOK ->
  waitForNtfyMessage g net =
  (Done None,
   (ClientDo req
    :: flat_map (lineEffects domain) (fst (scanAll (NewScanner (RespBody resp))))
    ++ [BodyScan; BodyClose])%list).
Proof.
  intros Hu Hn Hs. rewrite session_start, Hu.
  rewrite client_Do_eq, bind_Done, Hn. cbv beta iota.
  apply Z.eqb_eq in Hs. rewrite Hs. cbn [negb].
  rewrite forScan_scanAll, !bind_Done. cbn [fst snd emit ret bind app].
  rewrite <- app_assoc. reflexivity.
Qed.

End Session.

(** *** The loop body, case by case *)

Lemma loopBody_undecodable (domain text : string) (err : error) :
  json_Unmarshal text = inl err ->
  loopBody domain text =
  (Done tt,
   [Log LevelError "error while processing ntfy message"
      [("err", VError err); ("text", VString text)]]).
Proof. intros H. unfold loopBody. rewrite H. reflexivity. Qed.

Lemma loopBody_message (domain text : string) (msg : ntfyMessage) :
  json_Unmarshal text = inr msg ->
  Event msg = "message" ->
  loopBody domain text =
  (Done tt,
   [Log LevelInfo "sending message"
      [("title", VString (Title msg)); ("message", VString (Message msg))];
    Spawn (Some {| Text := postText msg |})]).
Proof.
  intros H He. unfold loopBody. rewrite H, He. cbn [String.eqb Ascii.eqb Bool.eqb].
  unfold postText. destruct (Title msg); reflexivity.
Qed.

Lemma loopBody_open (domain text : string) (msg : ntfyMessage) :
  json_Unmarshal text = inr msg ->
  Event msg = "open" ->
  loopBody domain text =
  (Done tt, [Log LevelInfo "subscription established" [("domain", VString domain)]]).
Proof. intros H He. unfold loopBody. rewrite H, He. reflexivity. Qed.

Lemma loopBody_keepalive (domain text : string) (msg : ntfyMessage) :
  json_Unmarshal text = inr msg ->
  Event msg = "keepalive" ->
  loopBody domain text = (Done tt, [Log LevelDebug "keepalive" []]).
Proof. intros H He. unfold loopBody. rewrite H, He. reflexivity. Qed.

Lemma loopBody_unknown (domain text : string) (msg : ntfyMessage) :
  json_Unmarshal text = inr msg ->
  Event msg <> "open" -> Event msg <> "keepalive" -> Event msg <> "message" ->
  loopBody domain text =
  (Done tt, [Log LevelWarn "bad message received" [("message", VString text)]]).
Proof.
  intros H Ho Hk Hm. unfold loopBody. rewrite H.
  apply String.eqb_neq in Ho, Hk, Hm. rewrite Ho, Hk, Hm. reflexivity.
Qed.

(** A decoded event that is no message leaves one log record and nothing
    else. *)
Lemma loopBody_no_message (domain text : string) (msg : ntfyMessage) :
  json_Unmarshal text = inr msg ->
  Event msg <> "message" ->
  exists l m a, loopBody domain text = (Done tt, [Log l m a]).
Proof.
  intros H Hm.
  destruct (String.eqb_spec (Event msg) "open") as [Ho|Ho].
  { do 3 eexists. eapply loopBody_open; eassumption. }
  destruct (String.eqb_spec (Event msg) "keepalive") as [Hk|Hk].
  { do 3 eexists. eapply loopBody_keepalive; eassumption. }
  do 3 eexists. eapply loopBody_unknown; eassumption.
Qed.

Lemma flat_map_cons_app {A B : Type} (f : A -> list B) (pre post : list A) (x : A) :
  flat_map f (pre ++ x :: post) = (flat_map f pre ++ f x ++ flat_map f post)%list.
Proof. rewrite flat_map_app. reflexivity. Qed.

(** *** What the tokens depend on *)

Lemma Scan_sameStream (s1 s2 : Scanner) :
  sameStream s1 s2 ->
  fst (Scan s1) = fst (Scan s2) /\
  sameStream (snd (Scan s1)) (snd (Scan s2)) /\
  token (snd (Scan s1)) = token (snd (Scan s2)).
Proof.
  intros (Hu & Hm & Hw). unfold Scan, seesEnd, sameStream.
  rewrite <- Hu, <- Hm, <- Hw.
  destruct (ScanLines (takeBytes (maxTokenSize s1) (unread s1)) false)
    as [adv [tok|]]; cbn [fst snd yield stop unread maxTokenSize srcErrWithData token].
  - rewrite <- Hu. auto.
  - destruct ((String.length (unread s1) <? maxTokenSize s1)%nat
              || (String.length (unread s1) =? maxTokenSize s1)%nat
                 && srcErrWithData s1);
      [|cbn [fst snd stop unread maxTokenSize srcErrWithData token]; auto].
    destruct (ScanLines (unread s1) true) as [adv2 [tok|]];
      cbn [fst snd yield stop unread maxTokenSize srcErrWithData token];
      rewrite <- ?Hu; auto.
Qed.

(** The tokens do not depend on the error that ends the stream. *)
Lemma scanAll_sameStream (s1 s2 : Scanner) :
  sameStream s1 s2 -> fst (scanAll s1) = fst (scanAll s2).
Proof.
  remember (String.length (unread s1)) as n eqn:Hn.
  revert s1 s2 Hn. induction n as [n IH] using lt_wf_ind. intros s1 s2 Hn Hs.
  rewrite (scanAll_step s1), (scanAll_step s2).
  destruct (Scan_sameStream s1 s2 Hs) as (Hb & Hs' & Ht).
  destruct (Scan s1) as [b1 s1'] eqn:E1, (Scan s2) as [b2 s2'] eqn:E2.
  cbn [fst snd] in Hb, Hs', Ht. subst b2.
  destruct b1; [|reflexivity].
  cbn [fst]. unfold ScannerText. rewrite Ht. f_equal.
  apply (IH (String.length (unread s1'))); [|reflexivity|assumption].
  subst n. apply Scan_shorter; assumption.
Qed.

Lemma NewScanner_withReadErr (b : Body) (e : option error) :
  sameStream (NewScanner (withReadErr b e)) (NewScanner b).
Proof. repeat split. Qed.

(** The scanner the loop leaves holds the error that stopped it: the
    reader's, or [ErrTooLong]. *)
Lemma scanAll_scanErr (s : Scanner) :
  ScannerErr (snd (scanAll s)) = srcErr s \/
  ScannerErr (snd (scanAll s)) = Some ErrTooLong.
Proof.
  remember (String.length (unread s)) as n eqn:Hn.
  revert s Hn. induction n as [n IH] using lt_wf_ind. intros s Hn.
  rewrite scanAll_step.
  destruct (Scan s) as [[|] s'] eqn:E.
  - cbn [snd]. pose proof (Scan_shorter _ _ E) as Hlt.
    assert (Hsrc : srcErr s' = srcErr s).
    { unfold Scan in E.
      destruct (ScanLines (takeBytes (maxTokenSize s) (unread s)) false)
        as [adv [tok|]].
      - inversion E; reflexivity.
      - destruct (seesEnd s); [|discriminate].
        destruct (ScanLines (unread s) true) as [adv2 [tok|]];
          [inversion E; reflexivity|discriminate]. }
    rewrite <- Hsrc.
    apply (IH (String.length (unread s'))); [subst n; assumption|reflexivity].
  - cbn [snd]. unfold Scan in E.
    destruct (ScanLines (takeBytes (maxTokenSize s) (unread s)) false)
      as [adv [tok|]]; [discriminate|].
    destruct (seesEnd s).
    + destruct (ScanLines (unread s) true) as [adv2 [tok|]]; [discriminate|].
      inversion E. left. reflexivity.
    + inversion E. right. reflexivity.
Qed.

(** *** The scanner on lines *)

Lemma length_app (s1 s2 : string) :
  String.length (s1 ++ s2) = String.length s1 + String.length s2.
Proof. induction s1 as [|a s1 IH]; simpl; [reflexivity|]. rewrite IH. reflexivity. Qed.

Lemma append_assoc (s1 s2 s3 : string) : (s1 ++ s2) ++ s3 = s1 ++ (s2 ++ s3).
Proof. induction s1 as [|a s1 IH]; simpl; [reflexivity|]. rewrite IH. reflexivity. Qed.

Lemma IndexByte_window (l rest : string) (n : nat) :
  IndexByte l LF = None ->
  String.length l < n ->
  IndexByte (takeBytes n (l ++ newline ++ rest)) LF = Some (String.length l).
Proof.
  revert n. induction l as [|a l IH]; intros n Hi Hn.
  - destruct n as [|n]; [simpl in Hn; lia|]. reflexivity.
  - destruct n as [|n]; [simpl in Hn; lia|].
    cbn [IndexByte] in Hi. cbn [append takeBytes IndexByte String.length].
    destruct (Ascii.eqb a LF); [discriminate|].
    destruct (IndexByte l LF) eqn:E; [discriminate|].
    rewrite IH; [reflexivity|reflexivity|simpl in Hn; lia].
Qed.

Lemma takeBytes_window (l x : string) (n : nat) :
  String.length l <= n ->
  takeBytes (String.length l) (takeBytes n (l ++ x)) = l.
Proof.
  revert n. induction l as [|a l IH]; intros n Hn; [reflexivity|].
  destruct n as [|n]; [simpl in Hn; lia|].
  cbn [append takeBytes String.length]. rewrite IH; [reflexivity|simpl in Hn; lia].
Qed.

Lemma dropBytes_line (l rest : string) :
  dropBytes (String.length l + 1) (l ++ newline ++ rest) = rest.
Proof. induction l as [|a l IH]; [reflexivity|]. simpl. exact IH. Qed.

(** A line that fits the buffer with its newline is the next token. *)
Lemma Scan_line (s : Scanner) (l rest : string) :
  unread s = l ++ newline ++ rest ->
  IndexByte l LF = None ->
  String.length l < maxTokenSize s ->
  Scan s = (true, yield s (String.length l + 1) (dropCR l)).
Proof.
  intros Hu Hi Hn. unfold Scan, ScanLines. cbn [andb].
  rewrite Hu, (IndexByte_window l rest _ Hi Hn).
  rewrite takeBytes_window by lia. reflexivity.
Qed.

Lemma takeBytes_app_short (long rest : string) (n : nat) :
  n <= String.length long ->
  takeBytes n (long ++ rest) = takeBytes n long.
Proof.
  revert long. induction n as [|n IH]; intros long Hn; [destruct long; reflexivity|].
  destruct long as [|a long]; [simpl in Hn; lia|].
  cbn [append takeBytes]. rewrite IH; [reflexivity|simpl in Hn; lia].
Qed.

Lemma IndexByte_takeBytes (long : string) (n : nat) :
  IndexByte long LF = None -> IndexByte (takeBytes n long) LF = None.
Proof.
  revert n. induction long as [|a long IH]; intros n Hi; [destruct n; reflexivity|].
  destruct n as [|n]; [reflexivity|].
  cbn [IndexByte] in Hi. cbn [takeBytes IndexByte].
  destruct (Ascii.eqb a LF); [discriminate|].
  destruct (IndexByte long LF) eqn:E; [discriminate|].
  rewrite IH; reflexivity.
Qed.

(** More bytes without a newline than the buffer may hold: the scanner
    gives up, whatever comes after them. *)
Lemma Scan_too_long (s : Scanner) (long rest : string) :
  unread s = long ++ rest ->
  IndexByte long LF = None ->
  maxTokenSize s < String.length long ->
  Scan s = (false, stop s (Some ErrTooLong)).
Proof.
  intros Hu Hi Hn. unfold Scan, ScanLines, seesEnd. cbn [andb].
  rewrite Hu, takeBytes_app_short by lia.
  rewrite (IndexByte_takeBytes long _ Hi).
  rewrite length_app.
  replace (String.length long + String.length rest <? maxTokenSize s)%nat
    with false by (symmetry; apply Nat.ltb_ge; lia).
  replace (String.length long + String.length rest =? maxTokenSize s)%nat
    with false by (symmetry; apply Nat.eqb_neq; lia).
  reflexivity.
Qed.

(** Lines that fit, one after the other, are the first tokens. *)
Lemma scanAll_lines (pre : list string) (s : Scanner) (d : string) :
  unread s = joinLines pre ++ d ->
  Forall (fun l => IndexByte l LF = None /\ String.length l < maxTokenSize s) pre ->
  exists s' : Scanner,
    unread s' = d /\ maxTokenSize s' = maxTokenSize s /\
    scanAll s = ((map dropCR pre ++ fst (scanAll s'))%list, snd (scanAll s')).
Proof.
  revert s. induction pre as [|l pre IH]; intros s Hu Hf.
  - exists s. repeat split; [exact Hu|]. destruct (scanAll s); reflexivity.
  - inversion Hf as [|? ? [Hi Hn] Hf']; subst.
    cbn [joinLines] in Hu. rewrite !append_assoc in Hu.
    pose proof (Scan_line s l (joinLines pre ++ d) Hu Hi Hn) as Hs.
    destruct (IH (yield s (String.length l + 1) (dropCR l))) as (s' & Hu' & Hm' & Ha).
    + cbn [yield unread]. rewrite Hu. apply dropBytes_line.
    + exact Hf'.
    + exists s'. split; [exact Hu'|]. split; [exact Hm'|].
      rewrite scanAll_step, Hs, Ha. reflexivity.
Qed.

(** *** One turn of the loop of [main] *)

Lemma iteration_returns (g : Globals) (net : Request -> error + Response)
  (err : option error) :
  result (waitForNtfyMessage g net) = Done err ->
  iteration g net =
  (Done tt,
   (effects (waitForNtfyMessage g net) ++ [outcomeLog err; Sleep (30 * Second)])%list).
Proof.
  intros H. unfold iteration. rewrite (bind_result _ _ err H).
  destruct err; reflexivity.
Qed.

Lemma forever_S (n i : nat) (g : Globals)
  (nets : nat -> Request -> error + Response) (t : list effect) :
  iteration g (nets i) = (Done tt, t) ->
  forever (S n) g nets i =
  (result (forever n g nets (S i)), (t ++ effects (forever n g nets (S i)))%list).
Proof. intros H. cbn [forever]. rewrite H, bind_Done. reflexivity. Qed.

(** *** A session that streams *)

Section Streaming.

Variables (g : Globals) (net : Request -> error + Response).
Variables (domain topic : string) (resp : Response).

Hypothesis Hdomain : ntfyDomain g = Some domain.
Hypothesis Htopic : ntfyTopic g = Some topic.

Let req : Request := subscription domain topic (ntfyAuth g).

Hypothesis Hurl : urlError (URL req) = None.
Hypothesis Hnet : net req = inr resp.
Hypothesis Hok : StatusCode resp = StatusOK.

(** The lines the read loop is given. *)
Let lines : list string := fst (scanAll (NewScanner (RespBody resp))).

Lemma streaming_effects :
  waitForNtfyMessage g net =
  (Done None,
   (ClientDo req :: flat_map (lineEffects domain) lines ++ [BodyScan; BodyClose])%list).
Proof. exact (session_streams g net domain topic Hdomain Htopic resp Hurl Hnet Hok). Qed.

Lemma streaming_spawned :
  spawned (effects (waitForNtfyMessage g net)) =
  spawned (flat_map (lineEffects domain) lines).
Proof.
  rewrite streaming_effects. unfold effects. cbn [snd spawned].
  rewrite spawned_app. cbn [spawned]. apply app_nil_r.
Qed.

(** C1. For every decoded event of kind "message" in a session, the post
    handed to the dispatcher at that point has the text "**" + title +
    "**: " + body when the title is not empty, and the body alone, byte
    for byte, when the title is empty. *)
Theorem C1_message_post_text
  (pre post : list string) (text : string) (msg : ntfyMessage) :
  lines = (pre ++ text :: post)%list ->
  json_Unmarshal text = inr msg ->
  Event msg = "message" ->
  exists post_text : string,
    spawned (effects (waitForNtfyMessage g net)) =
      (spawned (flat_map (lineEffects domain) pre)
       ++ Some {| Text := post_text |}
       :: spawned (flat_map (lineEffects domain) post))%list
    /\ (Title msg <> "" -> post_text = "**" ++ Title msg ++ "**: " ++ Message msg)
    /\ (Title msg = "" -> post_text = Message msg).
Proof.
  intros Hl Hd He. exists (postText msg). split; [|split].
  - rewrite streaming_spawned, Hl, flat_map_cons_app, !spawned_app.
    unfold lineEffects at 2. rewrite (loopBody_message domain text msg Hd He).
    reflexivity.
  - unfold postText. destruct (Title msg); [congruence|reflexivity].
  - unfold postText. intros ->. reflexivity.
Qed.

(** C3. A line that fails to decode is logged and skipped: the loop goes
    on with the lines after it and the session returns as it would have.
    In particular, when the line stands between two lines that decode to
    message events, both messages are dispatched. *)
Theorem C3_undecodable_line_skipped
  (pre post : list string) (bad : string) (err : error) :
  lines = (pre ++ bad :: post)%list ->
  json_Unmarshal bad = inl err ->
  waitForNtfyMessage g net =
    (Done None,
     (ClientDo req
      :: flat_map (lineEffects domain) pre
      ++ [BodyScan;
          Log LevelError "error while processing ntfy message"
            [("err", VError err); ("text", VString bad)]]
      ++ flat_map (lineEffects domain) post
      ++ [BodyScan; BodyClose])%list)
  /\ spawned (effects (waitForNtfyMessage g net)) =
       (spawned (flat_map (lineEffects domain) pre)
        ++ spawned (flat_map (lineEffects domain) post))%list
  /\ (forall (first last : string) (m1 m2 : ntfyMessage),
        pre = [first] -> post = [last] ->
        json_Unmarshal first = inr m1 -> Event m1 = "message" ->
        json_Unmarshal last = inr m2 -> Event m2 = "message" ->
        spawned (effects (waitForNtfyMessage g net)) =
          [Some {| Text := postText m1 |}; Some {| Text := postText m2 |}]).
Proof.
  intros Hl Hd.
  assert (Hsp : spawned (effects (waitForNtfyMessage g net)) =
                (spawned (flat_map (lineEffects domain) pre)
                 ++ spawned (flat_map (lineEffects domain) post))%list).
  { rewrite streaming_spawned, Hl, flat_map_cons_app, !spawned_app.
    unfold lineEffects at 2. rewrite (loopBody_undecodable domain bad err Hd).
    reflexivity. }
  split; [|split].
  - rewrite streaming_effects, Hl, flat_map_cons_app.
    unfold lineEffects at 2. rewrite (loopBody_undecodable domain bad err Hd).
    unfold effects. cbn [snd]. rewrite <- !app_assoc. reflexivity.
  - exact Hsp.
  - intros first last m1 m2 -> -> H1 He1 H2 He2. rewrite Hsp.
    cbn [flat_map]. rewrite !app_nil_r. unfold lineEffects.
    rewrite (loopBody_message domain first m1 H1 He1).
    rewrite (loopBody_message domain last m2 H2 He2). reflexivity.
Qed.

(** C4. A decoded event whose kind is not "message" ("open", "keepalive"
    or anything else) is logged and nothing is dispatched for it; the loop
    goes on with the next line. *)
Theorem C4_other_events_not_dispatched
  (pre post : list string) (text : string) (msg : ntfyMessage) :
  lines = (pre ++ text :: post)%list ->
  json_Unmarshal text = inr msg ->
  Event msg <> "message" ->
  (exists l m a, effects (loopBody domain text) = [Log l m a])
  /\ (Event msg = "open" ->
      effects (loopBody domain text) =
        [Log LevelInfo "subscription established" [("domain", VString domain)]])
  /\ (Event msg = "keepalive" ->
      effects (loopBody domain text) = [Log LevelDebug "keepalive" []])
  /\ (Event msg <> "open" -> Event msg <> "keepalive" ->
      effects (loopBody domain text) =
        [Log LevelWarn "bad message received" [("message", VString text)]])
  /\ waitForNtfyMessage g net =
       (Done None,
        (ClientDo req
         :: flat_map (lineEffects domain) pre
         ++ BodyScan :: effects (loopBody domain text)
         ++ flat_map (lineEffects domain) post
         ++ [BodyScan; BodyClose])%list)
  /\ spawned (effects (waitForNtfyMessage g net)) =
       (spawned (flat_map (lineEffects domain) pre)
        ++ spawned (flat_map (lineEffects domain) post))%list.
Proof.
  intros Hl Hd Hm.
  destruct (loopBody_no_message domain text msg Hd Hm) as (l & m & a & Hlog).
  split; [|split; [|split; [|split; [|split]]]].
  - exists l, m, a. rewrite Hlog. reflexivity.
  - intros Ho. rewrite (loopBody_open domain text msg Hd Ho). reflexivity.
  - intros Hk. rewrite (loopBody_keepalive domain text msg Hd Hk). reflexivity.
  - intros Ho Hk. rewrite (loopBody_unknown domain text msg Hd Ho Hk Hm). reflexivity.
  - rewrite streaming_effects, Hl, flat_map_cons_app.
    unfold lineEffects at 2. rewrite <- !app_assoc. reflexivity.
  - rewrite streaming_spawned, Hl, flat_map_cons_app, !spawned_app.
    unfold lineEffects at 2. rewrite Hlog. reflexivity.
Qed.

(** C9. Once the response is a 200, the session returns nil however the
    stream ends: the error the scanner is left with (the reader's error or
    [ErrTooLong]) is never looked at, a stream that breaks gives the very
    run a stream that ends cleanly gives, and [main] logs the return as a
    closed connection. *)
Theorem C9_stream_end_returns_nil :
  result (waitForNtfyMessage g net) = Done None
  /\ (exists sc : Scanner,
        result (forScan domain (NewScanner (RespBody resp))) = Done sc
        /\ (ScannerErr sc = readErr (RespBody resp)
            \/ ScannerErr sc = Some ErrTooLong))
  /\ (forall (e : option error) (net' : Request -> error + Response),
        net' req =
          inr {| StatusCode := StatusCode resp;
                 RespBody := withReadErr (RespBody resp) e |} ->
        waitForNtfyMessage g net' = waitForNtfyMessage g net)
  /\ iteration g net =
       (Done tt,
        (effects (waitForNtfyMessage g net)
         ++ [Log LevelInfo "connection closed, restarting" [];
             Sleep (30 * Second)])%list).
Proof.
  split; [|split; [|split]].
  - rewrite streaming_effects. reflexivity.
  - exists (snd (scanAll (NewScanner (RespBody resp)))). split.
    + rewrite forScan_scanAll. reflexivity.
    + exact (scanAll_scanErr (NewScanner (RespBody resp))).
  - intros e net' Hnet'. rewrite streaming_effects.
    rewrite (session_streams g net' domain topic Hdomain Htopic _ Hurl Hnet' Hok).
    cbn [RespBody]. unfold lines.
    rewrite (scanAll_sameStream _ _ (NewScanner_withReadErr (RespBody resp) e)).
    reflexivity.
  - apply (iteration_returns g net None). rewrite streaming_effects. reflexivity.
Qed.

(** C10. A line of more than 65536 bytes before its newline stops the read
    loop: the lines before it are handled, the scanner gives up with
    [ErrTooLong], nothing of the line or of what follows it is decoded,
    logged or dispatched, and the session returns nil; [main] logs a closed
    connection, sleeps thirty seconds and runs the next session. *)
Theorem C10_oversized_line_ends_session
  (pre : list string) (long rest : string) :
  content (RespBody resp) = joinLines pre ++ long ++ rest ->
  Forall (fun l => IndexByte l LF = None /\ String.length l < MaxScanTokenSize) pre ->
  IndexByte long LF = None ->
  MaxScanTokenSize < String.length long ->
  lines = map dropCR pre
  /\ (exists sc : Scanner,
        result (forScan domain (NewScanner (RespBody resp))) = Done sc
        /\ ScannerErr sc = Some ErrTooLong)
  /\ waitForNtfyMessage g net =
       (Done None,
        (ClientDo req
         :: flat_map (lineEffects domain) (map dropCR pre)
         ++ [BodyScan; BodyClose])%list)
  /\ (forall (n i : nat) (nets : nat -> Request -> error + Response),
        nets i = net ->
        forever (S n) g nets i =
          (result (forever n g nets (S i)),
           (effects (waitForNtfyMessage g net)
            ++ [Log LevelInfo "connection closed, restarting" [];
                Sleep (30 * Second)]
            ++ effects (forever n g nets (S i)))%list)).
Proof.
  intros Hc Hf Hi Hn.
  destruct (scanAll_lines pre (NewScanner (RespBody resp)) (long ++ rest) Hc Hf)
    as (s' & Hu' & Hm' & Ha).
  change (maxTokenSize (NewScanner (RespBody resp))) with MaxScanTokenSize in Hm'.
  rewrite <- Hm' in Hn.
  pose proof (Scan_too_long s' long rest Hu' Hi Hn) as Hs.
  rewrite (scanAll_step s'), Hs in Ha. cbn [fst snd] in Ha. rewrite app_nil_r in Ha.
  assert (Hl : lines = map dropCR pre) by (unfold lines; rewrite Ha; reflexivity).
  assert (Hw : waitForNtfyMessage g net =
               (Done None,
                (ClientDo req
                 :: flat_map (lineEffects domain) (map dropCR pre)
                 ++ [BodyScan; BodyClose])%list))
    by (rewrite streaming_effects, Hl; reflexivity).
  split; [exact Hl|]. split; [|split; [exact Hw|]].
  - exists (stop s' (Some ErrTooLong)). split; [|reflexivity].
    rewrite forScan_scanAll, Ha. reflexivity.
  - intros n i nets Hnets.
    rewrite (forever_S n i g nets
               (effects (waitForNtfyMessage g net)
                ++ [outcomeLog None; Sleep (30 * Second)])%list).
    + rewrite <- app_assoc. reflexivity.
    + rewrite Hnets. apply iteration_returns. rewrite Hw. reflexivity.
Qed.

End Streaming.

(** *** A session that is refused *)

(** C6, as the code has it. When the server answers with a status other
    than 200, the session fails with the fixed error "invalid response code
    from ntfy"; the status received is in the error record logged before
    the return, not in the error; the response body is not read. *)
Theorem C6_refused_status
  (g : Globals) (net : Request -> error + Response)
  (domain topic : string) (resp : Response) :
  ntfyDomain g = Some domain ->
  ntfyTopic g = Some topic ->
  urlError (URL (subscription domain topic (ntfyAuth g))) = None ->
  net (subscription domain topic (ntfyAuth g)) = inr resp ->
  StatusCode resp <> StatusOK ->
  result (waitForNtfyMessage g net) =
    Done (Some (errors_New "invalid response code from ntfy"))
  /\ In (Log LevelError "invalid status code"
           [("expected", VInt StatusOK); ("domain", VString domain);
            ("statusCode", VString (FormatInt (StatusCode resp)))])
        (effects (waitForNtfyMessage g net))
  /\ Forall (fun e => readsBody e = false) (effects (waitForNtfyMessage g net)).
Proof.
  intros Hd Ht Hu Hn Hs.
  rewrite (session_refused g net domain topic Hd Ht resp Hu Hn Hs).
  split; [reflexivity|]. split.
  - right. left. reflexivity.
  - repeat constructor.
Qed.

(** *** The delivery *)

Lemma FormatInt_read (z : Z) :
  NilZero.int_of_string (FormatInt z) = Some (Z.to_int z).
Proof.
  unfold FormatInt. apply NilZero.isi.
  - destruct z; simpl; try discriminate.
    intros H. inversion H as [H']. exact (Unsigned.to_uint_nonnil _ H').
  - destruct z; simpl; try discriminate.
    intros H. inversion H as [H']. exact (Unsigned.to_uint_nonnil _ H').
Qed.

(** The error for a rejected post names the status. *)
Lemma statusOfError_rejected (z : Z) :
  statusOfError (errors_New ("error status code " ++ FormatInt z)) = Some z.
Proof.
  unfold statusOfError.
  change (String.prefix "error status code " ("error status code " ++ FormatInt z))
    with (String.prefix "" (FormatInt z)).
  change (dropBytes (String.length "error status code ")
            ("error status code " ++ FormatInt z))
    with (FormatInt z).
  destruct (FormatInt z) eqn:E; cbn [String.prefix];
    rewrite <- E, FormatInt_read; cbn [option_map]; rewrite DecimalZ.of_to;
    reflexivity.
Qed.

(** C7. With a nil pointer for its argument the delivery function returns
    the error "webhook undefined" and has no effect at all: no request is
    built or sent. *)
Theorem C7_nil_webhook (g : Globals) (net : Request -> error + Response) :
  result (sendToSlack g net None) = Done (Some (errors_New "webhook undefined"))
  /\ effects (sendToSlack g net None) = []
  /\ (forall req : Request, ~ In (ClientDo req) (effects (sendToSlack g net None))).
Proof.
  split; [reflexivity|]. split; [reflexivity|].
  intros req H. destruct H.
Qed.

(** The delivery step by step, once the post is encoded and the request
    built. *)
Lemma sendToSlack_sent (g : Globals) (net : Request -> error + Response)
  (w : slackMessage) (jsonBytes url : string) :
  json_Marshal w = inr jsonBytes ->
  slackWebhookUrl g = Some url ->
  urlError url = None ->
  let req := {| Method := "POST"; URL := url;
                Header := [("Content-Type", "application/json")];
                Payload := Some jsonBytes |} in
  sendToSlack g net (Some w) =
  match net req with
  | inl err => (Done (Some err), [ClientDo req])
  | inr resp =>
      match readErr (RespBody resp) with
      | Some err =>
          (Done (Some err),
           ([ClientDo req; BodyReadAll;
             Log LevelError "error parsing body" [("err", VError err)]]
            ++ effects (closeBody (RespBody resp)))%list)
      | None =>
          (Done (if (400 <=? StatusCode resp)%Z
                 then Some (errors_New
                              ("error status code " ++ FormatInt (StatusCode resp)))
                 else None),
           ([ClientDo req; BodyReadAll;
             Log LevelDebug "slack response"
               [("status", VInt (StatusCode resp));
                ("body", VBytes (content (RespBody resp)))]]
            ++ effects (closeBody (RespBody resp)))%list)
      end
  end.
Proof.
  intros Hj Hw Hu req. unfold sendToSlack.
  rewrite Hj, Hw. unfold deref. rewrite bind_ret_l.
  unfold http_NewRequest. rewrite Hu.
  change (withHeader _ _) with req.
  rewrite client_Do_eq, bind_Done.
  destruct (net req) as [err|resp]; [reflexivity|].
  unfold io_ReadAll, closeBody.
  destruct (readErr (RespBody resp)) as [err|];
    [|destruct (400 <=? StatusCode resp)%Z];
    destruct (closeErr (RespBody resp)); reflexivity.
Qed.

Lemma closeBody_effects (b : Body) (req : Request) :
  ~ In (ClientDo req) (effects (closeBody b)).
Proof.
  unfold closeBody. destruct (closeErr b); cbn; intuition discriminate.
Qed.

(** The shape of a run of [sendToSlack]: nothing is sent and the call fails
    or panics, or one request is sent and what the network answers decides
    the rest. *)
Lemma sendToSlack_cases (g : Globals) (net : Request -> error + Response)
  (webhook : option slackMessage) :
  (effects (sendToSlack g net webhook) = []
   /\ result (sendToSlack g net webhook) <> Done None)
  \/ (exists (req : Request) (tail : list effect),
        effects (sendToSlack g net webhook) = ClientDo req :: tail
        /\ (forall req', ~ In (ClientDo req') tail)
        /\ match net req with
           | inl err => result (sendToSlack g net webhook) = Done (Some err)
           | inr resp =>
               In BodyReadAll tail
               /\ result (sendToSlack g net webhook) =
                    match readErr (RespBody resp) with
                    | Some err => Done (Some err)
                    | None =>
                        Done (if (400 <=? StatusCode resp)%Z
                              then Some (errors_New
                                           ("error status code "
                                            ++ FormatInt (StatusCode resp)))
                              else None)
                    end
           end).
Proof.
  destruct webhook as [w|]; [|left; split; [reflexivity|discriminate]].
  destruct (json_Marshal w) as [err|jsonBytes] eqn:Hj.
  { left. unfold sendToSlack. rewrite Hj. split; [reflexivity|discriminate]. }
  destruct (slackWebhookUrl g) as [url|] eqn:Hw.
  2:{ left. unfold sendToSlack. rewrite Hj, Hw. split; [reflexivity|discriminate]. }
  destruct (urlError url) as [err|] eqn:Hu.
  { left. unfold sendToSlack. rewrite Hj, Hw. unfold deref. rewrite bind_ret_l.
    unfold http_NewRequest. rewrite Hu. split; [reflexivity|discriminate]. }
  right. rewrite (sendToSlack_sent g net w jsonBytes url Hj Hw Hu). cbv zeta.
  match goal with |- context [net ?r] => exists r end.
  match goal with |- context [net ?r] => destruct (net r) as [err|resp] end.
  - exists []. repeat split. intros req' [].
  - destruct (readErr (RespBody resp)) as [err|]; eexists;
      (split; [reflexivity|]); (split; [|split; [left; reflexivity|reflexivity]]);
      intros req' [H|[H|H]]; try discriminate;
      exact (closeBody_effects _ _ H).
Qed.

(** C5, as the code has it. The delivery function returns nil exactly when
    the post was sent, a response came back, its body could be read to the
    end and its status is below 400.  When the request fails it returns the
    error of the connection.  When a response comes back its body is read
    in full before anything else; if that read fails the function returns
    the read error, whatever the status; if it succeeds and the status is
    400 or more the function returns an error that names the status. *)
Theorem C5_delivery_outcome (g : Globals) (net : Request -> error + Response)
  (webhook : option slackMessage) :
  (result (sendToSlack g net webhook) = Done None <->
   exists (req : Request) (resp : Response),
     In (ClientDo req) (effects (sendToSlack g net webhook))
     /\ net req = inr resp
     /\ readErr (RespBody resp) = None
     /\ (StatusCode resp < 400)%Z)
  /\ (forall (req : Request) (err : error),
        In (ClientDo req) (effects (sendToSlack g net webhook)) ->
        net req = inl err ->
        result (sendToSlack g net webhook) = Done (Some err))
  /\ (forall (req : Request) (resp : Response),
        In (ClientDo req) (effects (sendToSlack g net webhook)) ->
        net req = inr resp ->
        In BodyReadAll (effects (sendToSlack g net webhook))
        /\ (forall err : error,
              readErr (RespBody resp) = Some err ->
              result (sendToSlack g net webhook) = Done (Some err))
        /\ (readErr (RespBody resp) = None ->
            (400 <= StatusCode resp)%Z ->
            result (sendToSlack g net webhook) =
              Done (Some (errors_New
                            ("error status code " ++ FormatInt (StatusCode resp))))
            /\ statusOfError
                 (errors_New ("error status code " ++ FormatInt (StatusCode resp)))
               = Some (StatusCode resp))).
Proof.
  destruct (sendToSlack_cases g net webhook)
    as [[He Hr]|(req0 & tail & He & Htail & Hnet)].
  - rewrite He. split; [split|split].
    + intros H. contradiction.
    + intros (req & resp & [] & _).
    + intros req err [].
    + intros req resp [].
  - assert (Hreq : forall req,
               In (ClientDo req) (effects (sendToSlack g net webhook)) ->
               req = req0).
    { intros req. rewrite He. intros [H|H]; [congruence|].
      destruct (Htail _ H). }
    split; [split|split].
    + intros Hnil. exists req0. destruct (net req0) as [err|resp] eqn:En.
      * rewrite Hnet in Hnil. discriminate.
      * destruct Hnet as [_ Hres]. rewrite Hres in Hnil. exists resp.
        split; [rewrite He; left; reflexivity|]. split; [reflexivity|].
        destruct (readErr (RespBody resp)); [discriminate|].
        split; [reflexivity|].
        destruct (400 <=? StatusCode resp)%Z eqn:E4; [discriminate|].
        apply Z.leb_gt in E4. exact E4.
    + intros (req & resp & Hin & Hn & Hre & Hlt).
      apply Hreq in Hin. subst req. rewrite Hn in Hnet.
      destruct Hnet as [_ Hres]. rewrite Hres, Hre.
      apply Z.leb_gt in Hlt. rewrite Hlt. reflexivity.
    + intros req err Hin Hn. apply Hreq in Hin. subst req.
      rewrite Hn in Hnet. exact Hnet.
    + intros req resp Hin Hn. apply Hreq in Hin. subst req.
      rewrite Hn in Hnet. destruct Hnet as [Hread Hres].
      split; [rewrite He; right; exact Hread|]. split.
      * intros err Hre. rewrite Hres, Hre. reflexivity.
      * intros Hre Hge. split; [|apply statusOfError_rejected].
        rewrite Hres, Hre. apply Z.leb_le in Hge. rewrite Hge. reflexivity.
Qed.

(** *** The process *)

(** [flag.String] never returns nil: after [main] has set them, none of the
    package-level pointers is nil. *)
Lemma globals_set (p : Process) :
  exists domain topic auth url : string,
    globals p =
    {| ntfyDomain := Some domain; ntfyTopic := Some topic;
       ntfyAuth := Some auth; slackWebhookUrl := Some url |}.
Proof. unfold globals, flag_String. do 4 eexists. reflexivity. Qed.

(** Without [NTFY_AUTH] and without [-ntfy-auth] the credential is the
    empty string, and the pointer to it is not nil. *)
Lemma globals_no_credential (p : Process) :
  LookupEnv p "NTFY_AUTH" = None ->
  flagValue p "ntfy-auth" = None ->
  ntfyAuth (globals p) = Some "".
Proof.
  intros He Hf. unfold globals, flag_String, envOrEmpty. cbn [ntfyAuth].
  rewrite He, Hf. reflexivity.
Qed.

(** [waitForNtfyMessage] leaves the header out for a nil pointer only. *)
Lemma session_header (g : Globals) (net : Request -> error + Response)
  (domain topic : string) :
  ntfyDomain g = Some domain ->
  ntfyTopic g = Some topic ->
  urlError ("https://" ++ domain ++ "/" ++ topic ++ "/json") = None ->
  exists tail : list effect,
    effects (waitForNtfyMessage g net) =
    ClientDo (subscription domain topic (ntfyAuth g)) :: tail.
Proof.
  intros Hd Ht Hu. rewrite (session_start g net domain topic Hd Ht).
  change (URL (subscription domain topic (ntfyAuth g)))
    with ("https://" ++ domain ++ "/" ++ topic ++ "/json").
  rewrite Hu, client_Do_eq, bind_Done. eexists. reflexivity.
Qed.

Lemma loopBody_no_sleep (domain text : string) :
  sleeps (effects (loopBody domain text)) = [].
Proof.
  unfold loopBody.
  destruct (json_Unmarshal text) as [err|msg]; [reflexivity|].
  destruct (Event msg =? "open"); [reflexivity|].
  destruct (Event msg =? "keepalive"); [reflexivity|].
  destruct (Event msg =? "message"); [|reflexivity].
  destruct (negb (Title msg =? "")); reflexivity.
Qed.

Lemma lines_no_sleep (domain : string) (ls : list string) :
  sleeps (flat_map (lineEffects domain) ls) = [].
Proof.
  induction ls as [|l ls IH]; [reflexivity|].
  cbn [flat_map]. rewrite sleeps_app, IH. unfold lineEffects. cbn [sleeps].
  rewrite loopBody_no_sleep. reflexivity.
Qed.

(** A session with its pointers set returns, with or without an error, and
    does not sleep. *)
Lemma session_returns (g : Globals) (net : Request -> error + Response)
  (domain topic : string) :
  ntfyDomain g = Some domain ->
  ntfyTopic g = Some topic ->
  exists err : option error,
    result (waitForNtfyMessage g net) = Done err
    /\ sleeps (effects (waitForNtfyMessage g net)) = [].
Proof.
  intros Hd Ht.
  set (req := subscription domain topic (ntfyAuth g)).
  destruct (urlError (URL req)) as [err|] eqn:Hu.
  { rewrite (session_bad_url g net domain topic Hd Ht err Hu).
    eexists. split; reflexivity. }
  destruct (net req) as [err|resp] eqn:Hn.
  { rewrite (session_unreachable g net domain topic Hd Ht err Hu Hn).
    eexists. split; reflexivity. }
  destruct (Z.eq_dec (StatusCode resp) StatusOK) as [Hs|Hs].
  - rewrite (session_streams g net domain topic Hd Ht resp Hu Hn Hs).
    eexists. split; [reflexivity|].
    unfold effects. cbn [snd sleeps]. rewrite sleeps_app, lines_no_sleep.
    reflexivity.
  - rewrite (session_refused g net domain topic Hd Ht resp Hu Hn Hs).
    eexists. split; reflexivity.
Qed.

Lemma iteration_sleeps (g : Globals) (net : Request -> error + Response)
  (domain topic : string) :
  ntfyDomain g = Some domain ->
  ntfyTopic g = Some topic ->
  exists err : option error,
    result (waitForNtfyMessage g net) = Done err
    /\ iteration g net =
         (Done tt,
          (effects (waitForNtfyMessage g net)
           ++ [outcomeLog err; Sleep 30000000000])%list)
    /\ sleeps (effects (iteration g net)) = [30000000000%Z].
Proof.
  intros Hd Ht.
  destruct (session_returns g net domain topic Hd Ht) as (err & Hr & Hs).
  exists err. split; [exact Hr|].
  pose proof (iteration_returns g net err Hr) as Hi.
  split; [exact Hi|].
  rewrite Hi. unfold effects at 1. cbn [snd]. rewrite sleeps_app, Hs.
  destruct err; reflexivity.
Qed.

Lemma forever_effects (n i : nat) (g : Globals)
  (nets : nat -> Request -> error + Response) (domain topic : string) :
  ntfyDomain g = Some domain ->
  ntfyTopic g = Some topic ->
  forever n g nets i =
    (Done tt, flat_map (fun j => effects (iteration g (nets j))) (seq i n))
  /\ sleeps (effects (forever n g nets i)) = repeat 30000000000%Z n.
Proof.
  intros Hd Ht. revert i. induction n as [|n IH]; intros i.
  - split; reflexivity.
  - destruct (iteration_sleeps g (nets i) domain topic Hd Ht) as (err & _ & Hi & Hs).
    destruct (IH (S i)) as [He Hsl].
    assert (Hf : forever (S n) g nets i =
                 (Done tt,
                  flat_map (fun j => effects (iteration g (nets j))) (seq i (S n)))).
    { rewrite (forever_S n i g nets _ Hi), He. cbn [seq flat_map result effects fst snd].
      rewrite Hi. reflexivity. }
    split; [exact Hf|].
    rewrite Hf. unfold effects at 1. cbn [snd seq flat_map].
    rewrite sleeps_app, Hs. rewrite He in Hsl. unfold effects at 1 in Hsl.
    cbn [snd] in Hsl. rewrite Hsl. reflexivity.
Qed.

(** [main] past its flags: the first [n] turns of the loop. *)
Lemma main_loop (p : Process) (nets : nat -> Request -> error + Response)
  (n : nat) :
  flagV p = false ->
  main p nets n =
  (Done (InLoop n),
   SetLogLevel (logLevel p)
   :: flat_map (fun i => effects (iteration (globals p) (nets i))) (seq 0 n)).
Proof.
  intros Hv.
  destruct (globals_set p) as (domain & topic & auth & url & Hg).
  assert (Hd : ntfyDomain (globals p) = Some domain) by (rewrite Hg; reflexivity).
  assert (Ht : ntfyTopic (globals p) = Some topic) by (rewrite Hg; reflexivity).
  destruct (forever_effects n 0 (globals p) nets domain topic Hd Ht) as [Hf _].
  unfold main. rewrite Hv. unfold emit. rewrite bind_Done.
  rewrite Hf, bind_Done. cbn [fst snd ret app]. rewrite app_nil_r. reflexivity.
Qed.

(** C2. Unless it was started to print its version, [main] is in its loop
    after any number of turns: every session started from [main] returns,
    and after each return, with an error or without, [main] logs what the
    session returned, sleeps thirty seconds and runs the next session.
    There is no turn after which it stops. *)
Theorem C2_supervisory_loop (p : Process)
  (nets : nat -> Request -> error + Response) (n : nat) :
  flagV p = false ->
  result (main p nets n) = Done (InLoop n)
  /\ effects (main p nets n) =
       SetLogLevel (logLevel p)
       :: flat_map (fun i => effects (iteration (globals p) (nets i))) (seq 0 n)
  /\ (forall i : nat,
        exists err : option error,
          result (waitForNtfyMessage (globals p) (nets i)) = Done err
          /\ iteration (globals p) (nets i) =
               (Done tt,
                (effects (waitForNtfyMessage (globals p) (nets i))
                 ++ [outcomeLog err; Sleep 30000000000])%list))
  /\ sleeps (effects (main p nets n)) = repeat 30000000000%Z n.
Proof.
  intros Hv.
  destruct (globals_set p) as (domain & topic & auth & url & Hg).
  assert (Hd : ntfyDomain (globals p) = Some domain) by (rewrite Hg; reflexivity).
  assert (Ht : ntfyTopic (globals p) = Some topic) by (rewrite Hg; reflexivity).
  destruct (forever_effects n 0 (globals p) nets domain topic Hd Ht) as [Hf Hs].
  pose proof (main_loop p nets n Hv) as Hm.
  split; [rewrite Hm; reflexivity|]. split; [rewrite Hm; reflexivity|]. split.
  - intros i.
    destruct (iteration_sleeps (globals p) (nets i) domain topic Hd Ht)
      as (err & Hr & Hi & _).
    exists err. split; assumption.
  - rewrite Hm. unfold effects at 1. cbn [snd sleeps].
    rewrite Hf in Hs. exact Hs.
Qed.

(** C8, where the code departs from it. A process started without
    [NTFY_AUTH] and without [-ntfy-auth] still sends an Authorization
    header, with an empty credential: its first session sends a GET to
    "https://" + host + "/" + topic + "/json" with the header
    "Authorization: Bearer ". *)
Theorem C8_bearer_header_without_credential (p : Process)
  (nets : nat -> Request -> error + Response) :
  LookupEnv p "NTFY_AUTH" = None ->
  flagValue p "ntfy-auth" = None ->
  flagV p = false ->
  exists domain topic : string,
    ntfyDomain (globals p) = Some domain
    /\ ntfyTopic (globals p) = Some topic
    /\ ntfyAuth (globals p) = Some ""
    /\ (urlError ("https://" ++ domain ++ "/" ++ topic ++ "/json") = None ->
        exists tail : list effect,
          effects (main p nets 1) =
          SetLogLevel (logLevel p)
          :: ClientDo {| Method := "GET";
                         URL := "https://" ++ domain ++ "/" ++ topic ++ "/json";
                         Header := [("Authorization", "Bearer ")];
                         Payload := None |}
          :: tail).
Proof.
  intros He Hf Hv.
  destruct (globals_set p) as (domain & topic & auth & url & Hg).
  assert (Hd : ntfyDomain (globals p) = Some domain) by (rewrite Hg; reflexivity).
  assert (Ht : ntfyTopic (globals p) = Some topic) by (rewrite Hg; reflexivity).
  pose proof (globals_no_credential p He Hf) as Ha.
  exists domain, topic. repeat (split; [assumption|]).
  intros Hu.
  rewrite (main_loop p nets 1 Hv). cbn [seq flat_map effects snd].
  destruct (iteration_sleeps (globals p) (nets 0) domain topic Hd Ht)
    as (err & _ & Hi & _).
  destruct (session_header (globals p) (nets 0) domain topic Hd Ht Hu)
    as (tail & Hh).
  rewrite Hi. cbn [snd]. rewrite Hh, Ha. eexists. reflexivity.
Qed.

End Properties.

(** ** Further properties of the three functions *)

Section Coverage.

Context {lib : Library}.

(** *** Counting in a run *)

Lemma requests_app (t u : list effect) :
  requests (t ++ u) = (requests t ++ requests u)%list.
Proof.
  induction t as [|e t IH]; simpl; [reflexivity|].
  destruct e; simpl; rewrite IH; reflexivity.
Qed.

Lemma closes_app (t u : list effect) : closes (t ++ u) = closes t + closes u.
Proof.
  induction t as [|e t IH]; simpl; [reflexivity|].
  destruct e; simpl; rewrite IH; reflexivity.
Qed.

Lemma scans_app (t u : list effect) : scans (t ++ u) = scans t + scans u.
Proof.
  induction t as [|e t IH]; simpl; [reflexivity|].
  destruct e; simpl; rewrite IH; reflexivity.
Qed.

Lemma exits_app (t u : list effect) :
  exits (t ++ u) = (exits t ++ exits u)%list.
Proof.
  induction t as [|e t IH]; simpl; [reflexivity|].
  destruct e; simpl; rewrite IH; reflexivity.
Qed.

(** *** What one turn of the read loop leaves *)

(** One log record, followed by one post for a message event. *)
Lemma loopBody_shape (domain text : string) :
  exists l m a,
    loopBody domain text =
    (Done tt, Log l m a :: map (fun w => Spawn w) (dispatchOf text)).
Proof.
  unfold loopBody, dispatchOf.
  destruct (json_Unmarshal text) as [err|msg]; [do 3 eexists; reflexivity|].
  destruct (Event msg =? "open") eqn:Eo.
  { apply String.eqb_eq in Eo. rewrite Eo. do 3 eexists. reflexivity. }
  destruct (Event msg =? "keepalive") eqn:Ek.
  { apply String.eqb_eq in Ek. rewrite Ek. do 3 eexists. reflexivity. }
  destruct (Event msg =? "message") eqn:Em; [|do 3 eexists; reflexivity].
  unfold postText. destruct (Title msg); do 3 eexists; reflexivity.
Qed.

Lemma lineEffects_spawned (domain text : string) :
  spawned (lineEffects domain text) = dispatchOf text.
Proof.
  unfold lineEffects, dispatchOf.
  destruct (json_Unmarshal text) as [err|msg] eqn:Hd.
  - rewrite (loopBody_undecodable domain text err Hd). reflexivity.
  - destruct (Event msg =? "message") eqn:Em.
    + apply String.eqb_eq in Em.
      rewrite (loopBody_message domain text msg Hd Em). reflexivity.
    + apply String.eqb_neq in Em.
      destruct (loopBody_no_message domain text msg Hd Em) as (l & m & a & H).
      rewrite H. reflexivity.
Qed.

Lemma dispatchOf_length (text : string) :
  length (dispatchOf text) = if isMessage text then 1 else 0.
Proof.
  unfold dispatchOf, isMessage.
  destruct (json_Unmarshal text) as [err|msg]; [reflexivity|].
  destruct (Event msg =? "message"); reflexivity.
Qed.

Lemma dispatchOf_not_nil (text : string) :
  Forall (fun w => w <> None) (dispatchOf text).
Proof.
  unfold dispatchOf.
  destruct (json_Unmarshal text) as [err|msg]; [constructor|].
  destruct (Event msg =? "message"); repeat constructor. discriminate.
Qed.

Lemma lineEffects_counts (domain text : string) :
  requests (lineEffects domain text) = []
  /\ closes (lineEffects domain text) = 0
  /\ scans (lineEffects domain text) = 1
  /\ exits (lineEffects domain text) = [].
Proof.
  unfold lineEffects.
  destruct (loopBody_shape domain text) as (l & m & a & H).
  rewrite H. unfold effects. cbn [snd].
  unfold dispatchOf. destruct (json_Unmarshal text) as [err|msg];
    [repeat split|].
  destruct (Event msg =? "message"); repeat split.
Qed.

Lemma lines_counts (domain : string) (ls : list string) :
  requests (flat_map (lineEffects domain) ls) = []
  /\ closes (flat_map (lineEffects domain) ls) = 0
  /\ scans (flat_map (lineEffects domain) ls) = length ls
  /\ exits (flat_map (lineEffects domain) ls) = [].
Proof.
  induction ls as [|l ls (Hr & Hc & Hs & He)]; [repeat split|].
  destruct (lineEffects_counts domain l) as (Hr1 & Hc1 & Hs1 & He1).
  cbn [flat_map length].
  rewrite requests_app, closes_app, scans_app, exits_app.
  rewrite Hr, Hc, Hs, He, Hr1, Hc1, Hs1, He1. repeat split.
Qed.

Lemma lines_spawned (domain : string) (ls : list string) :
  spawned (flat_map (lineEffects domain) ls) = flat_map dispatchOf ls.
Proof.
  induction ls as [|l ls IH]; [reflexivity|].
  cbn [flat_map]. rewrite spawned_app, IH, lineEffects_spawned. reflexivity.
Qed.

(** *** The four ways a session goes *)

Lemma session_cases (g : Globals) (net : Request -> error + Response)
  (domain topic : string) :
  ntfyDomain g = Some domain ->
  ntfyTopic g = Some topic ->
  let req := subscription domain topic (ntfyAuth g) in
  (exists err, urlError (URL req) = Some err
     /\ waitForNtfyMessage g net =
        (Done (Some err),
         [Log LevelError "error getting ntfy response" [("err", VError err)]]))
  \/ (exists err, urlError (URL req) = None /\ net req = inl err
     /\ waitForNtfyMessage g net =
        (Done (Some err),
         [ClientDo req;
          Log LevelError "error connecting to ntfy server" [("err", VError err)]]))
  \/ (exists resp, urlError (URL req) = None /\ net req = inr resp
     /\ StatusCode resp <> StatusOK
     /\ waitForNtfyMessage g net =
        (Done (Some (errors_New "invalid response code from ntfy")),
         [ClientDo req;
          Log LevelError "invalid status code"
            [("expected", VInt StatusOK); ("domain", VString domain);
             ("statusCode", VString (FormatInt (StatusCode resp)))]]))
  \/ (exists resp, urlError (URL req) = None /\ net req = inr resp
     /\ StatusCode resp = StatusOK
     /\ waitForNtfyMessage g net =
        (Done None,
         (ClientDo req
          :: flat_map (lineEffects domain)
               (fst (scanAll (NewScanner (RespBody resp))))
          ++ [BodyScan; BodyClose])%list)).
Proof.
  intros Hd Ht req.
  destruct (urlError (URL req)) as [err|] eqn:Hu.
  { left. exists err. split; [reflexivity|].
    exact (session_bad_url g net domain topic Hd Ht err Hu). }
  destruct (net req) as [err|resp] eqn:Hn.
  { right. left. exists err. repeat split.
    exact (session_unreachable g net domain topic Hd Ht err Hu Hn). }
  destruct (Z.eq_dec (StatusCode resp) StatusOK) as [Hs|Hs].
  - right. right. right. exists resp. repeat split; [exact Hs|].
    exact (session_streams g net domain topic Hd Ht resp Hu Hn Hs).
  - right. right. left. exists resp. repeat split; [exact Hs|].
    exact (session_refused g net domain topic Hd Ht resp Hu Hn Hs).
Qed.

(** A nil pointer for the domain or the topic: the session panics before
    it does anything. *)
Lemma session_nil_pointer (g : Globals) (net : Request -> error + Response) :
  ntfyDomain g = None \/ ntfyTopic g = None ->
  effects (waitForNtfyMessage g net) = [].
Proof.
  intros [H|H]; unfold waitForNtfyMessage; rewrite H.
  - reflexivity.
  - destruct (ntfyDomain g); reflexivity.
Qed.

(** *** The session *)

Lemma dispatchOf_count (ls : list string) :
  length (flat_map dispatchOf ls) = length (filter isMessage ls).
Proof.
  induction ls as [|l ls IH]; [reflexivity|].
  cbn [flat_map filter]. rewrite List.length_app, IH, dispatchOf_length.
  destruct (isMessage l); reflexivity.
Qed.

Lemma dispatchOf_all_not_nil (ls : list string) :
  Forall (fun w => w <> None) (flat_map dispatchOf ls).
Proof.
  induction ls as [|l ls IH]; [constructor|].
  cbn [flat_map]. apply Forall_app. split; [apply dispatchOf_not_nil|exact IH].
Qed.

(** X1. With its pointers set, a session returns nil exactly when the URL
    was accepted and the server answered 200.  In every other case it
    returns an error and has neither dispatched anything nor read or closed
    a response body. *)
Theorem session_nil_iff_ok (g : Globals) (net : Request -> error + Response)
  (domain topic : string) :
  ntfyDomain g = Some domain ->
  ntfyTopic g = Some topic ->
  (result (waitForNtfyMessage g net) = Done None <->
   urlError (URL (subscription domain topic (ntfyAuth g))) = None
   /\ exists resp : Response,
        net (subscription domain topic (ntfyAuth g)) = inr resp
        /\ StatusCode resp = StatusOK)
  /\ (result (waitForNtfyMessage g net) <> Done None ->
      (exists err, result (waitForNtfyMessage g net) = Done (Some err))
      /\ spawned (effects (waitForNtfyMessage g net)) = []
      /\ Forall (fun e => readsBody e = false) (effects (waitForNtfyMessage g net))
      /\ closes (effects (waitForNtfyMessage g net)) = 0).
Proof.
  intros Hd Ht.
  destruct (session_cases g net domain topic Hd Ht)
    as [(err & Hu & H)|[(err & Hu & Hn & H)|[(resp & Hu & Hn & Hs & H)
        |(resp & Hu & Hn & Hs & H)]]]; rewrite H; unfold result, effects; cbn [fst snd].
  - split; [split; [discriminate|]|].
    + intros [Hu' _]. congruence.
    + intros _. split; [eexists; reflexivity|]. repeat split. repeat constructor.
  - split; [split; [discriminate|]|].
    + intros (_ & resp & Hn' & _). congruence.
    + intros _. split; [eexists; reflexivity|]. repeat split. repeat constructor.
  - split; [split; [discriminate|]|].
    + intros (_ & resp' & Hn' & Hs'). congruence.
    + intros _. split; [eexists; reflexivity|]. repeat split. repeat constructor.
  - split; [split|].
    + intros _. split; [exact Hu|]. exists resp. split; assumption.
    + reflexivity.
    + intros Hne. congruence.
Qed.

(** X2. When [http.NewRequest] refuses the URL the session asks nothing of
    the network: it logs the error and returns it, and [main] logs it
    again and sleeps thirty seconds. *)
Theorem session_bad_url_sends_nothing (g : Globals)
  (net : Request -> error + Response) (domain topic : string) (err : error) :
  ntfyDomain g = Some domain ->
  ntfyTopic g = Some topic ->
  urlError (URL (subscription domain topic (ntfyAuth g))) = Some err ->
  result (waitForNtfyMessage g net) = Done (Some err)
  /\ requests (effects (waitForNtfyMessage g net)) = []
  /\ iteration g net =
       (Done tt,
        [Log LevelError "error getting ntfy response" [("err", VError err)];
         Log LevelError "waitForNtfyMessage" [("err", VError err)];
         Sleep 30000000000]).
Proof.
  intros Hd Ht Hu.
  pose proof (session_bad_url g net domain topic Hd Ht err Hu) as H.
  split; [rewrite H; reflexivity|]. split; [rewrite H; reflexivity|].
  rewrite (iteration_returns g net (Some err)) by (rewrite H; reflexivity).
  rewrite H. reflexivity.
Qed.

(** X3. When [client.Do] fails the session returns the error of the
    connection as it is, after the one request, without touching a body;
    [main] logs it again and sleeps thirty seconds. *)
Theorem session_connection_error (g : Globals)
  (net : Request -> error + Response) (domain topic : string) (err : error) :
  ntfyDomain g = Some domain ->
  ntfyTopic g = Some topic ->
  urlError (URL (subscription domain topic (ntfyAuth g))) = None ->
  net (subscription domain topic (ntfyAuth g)) = inl err ->
  result (waitForNtfyMessage g net) = Done (Some err)
  /\ requests (effects (waitForNtfyMessage g net)) =
       [subscription domain topic (ntfyAuth g)]
  /\ iteration g net =
       (Done tt,
        [ClientDo (subscription domain topic (ntfyAuth g));
         Log LevelError "error connecting to ntfy server" [("err", VError err)];
         Log LevelError "waitForNtfyMessage" [("err", VError err)];
         Sleep 30000000000]).
Proof.
  intros Hd Ht Hu Hn.
  pose proof (session_unreachable g net domain topic Hd Ht err Hu Hn) as H.
  split; [rewrite H; reflexivity|]. split; [rewrite H; reflexivity|].
  rewrite (iteration_returns g net (Some err)) by (rewrite H; reflexivity).
  rewrite H. reflexivity.
Qed.

(** X4. In a session that streams, the posts handed to [go sendToSlack]
    are those of the message events among the lines, one each, in the
    order of the lines; lines that do not decode and events of other kinds
    add none. *)
Theorem session_dispatch_order (g : Globals)
  (net : Request -> error + Response) (domain topic : string) (resp : Response) :
  ntfyDomain g = Some domain ->
  ntfyTopic g = Some topic ->
  urlError (URL (subscription domain topic (ntfyAuth g))) = None ->
  net (subscription domain topic (ntfyAuth g)) = inr resp ->
  StatusCode resp = StatusOK ->
  spawned (effects (waitForNtfyMessage g net)) =
    flat_map dispatchOf (fst (scanAll (NewScanner (RespBody resp))))
  /\ length (spawned (effects (waitForNtfyMessage g net))) =
       length (filter isMessage (fst (scanAll (NewScanner (RespBody resp))))).
Proof.
  intros Hd Ht Hu Hn Hs.
  assert (H : spawned (effects (waitForNtfyMessage g net)) =
              flat_map dispatchOf (fst (scanAll (NewScanner (RespBody resp))))).
  { rewrite (session_streams g net domain topic Hd Ht resp Hu Hn Hs).
    unfold effects. cbn [snd spawned].
    rewrite spawned_app, lines_spawned. cbn [spawned]. apply app_nil_r. }
  split; [exact H|]. rewrite H. apply dispatchOf_count.
Qed.

(** X5. A session that streams sends one request, calls [Scan] once more
    than there are lines, and closes the body once, as the last thing it
    does. *)
Theorem session_body_closed_once (g : Globals)
  (net : Request -> error + Response) (domain topic : string) (resp : Response) :
  ntfyDomain g = Some domain ->
  ntfyTopic g = Some topic ->
  urlError (URL (subscription domain topic (ntfyAuth g))) = None ->
  net (subscription domain topic (ntfyAuth g)) = inr resp ->
  StatusCode resp = StatusOK ->
  requests (effects (waitForNtfyMessage g net)) =
    [subscription domain topic (ntfyAuth g)]
  /\ scans (effects (waitForNtfyMessage g net)) =
       S (length (fst (scanAll (NewScanner (RespBody resp)))))
  /\ closes (effects (waitForNtfyMessage g net)) = 1
  /\ exists t : list effect,
       effects (waitForNtfyMessage g net) = (t ++ [BodyClose])%list.
Proof.
  intros Hd Ht Hu Hn Hs.
  rewrite (session_streams g net domain topic Hd Ht resp Hu Hn Hs).
  unfold effects. cbn [snd requests scans closes].
  destruct (lines_counts domain (fst (scanAll (NewScanner (RespBody resp)))))
    as (Hr & Hc & Hsc & _).
  rewrite requests_app, scans_app, closes_app, Hr, Hc, Hsc. cbn.
  split; [reflexivity|]. split; [lia|]. split; [reflexivity|].
  eexists (ClientDo _ :: _ ++ [BodyScan])%list.
  cbn [app]. rewrite <- app_assoc. reflexivity.
Qed.

(** X6. Whatever its pointers and whatever the network does, a session
    sends at most one request and closes at most one body, never sleeps,
    never exits, and never starts [sendToSlack] on a nil pointer. *)
Theorem session_bounds (g : Globals) (net : Request -> error + Response) :
  length (requests (effects (waitForNtfyMessage g net))) <= 1
  /\ closes (effects (waitForNtfyMessage g net)) <= 1
  /\ sleeps (effects (waitForNtfyMessage g net)) = []
  /\ exits (effects (waitForNtfyMessage g net)) = []
  /\ Forall (fun w => w <> None) (spawned (effects (waitForNtfyMessage g net))).
Proof.
  destruct (ntfyDomain g) as [domain|] eqn:Hd.
  2:{ rewrite (session_nil_pointer g net) by (left; exact Hd).
      cbn. repeat split; (lia || constructor). }
  destruct (ntfyTopic g) as [topic|] eqn:Ht.
  2:{ rewrite (session_nil_pointer g net) by (right; exact Ht).
      cbn. repeat split; (lia || constructor). }
  destruct (session_cases g net domain topic Hd Ht)
    as [(err & Hu & H)|[(err & Hu & Hn & H)|[(resp & Hu & Hn & Hs & H)
        |(resp & Hu & Hn & Hs & H)]]]; rewrite H; unfold effects; cbn [snd];
    try (cbn; repeat split; (lia || constructor)).
  destruct (lines_counts domain (fst (scanAll (NewScanner (RespBody resp)))))
    as (Hr & Hc & Hsc & He).
  cbn [requests closes sleeps exits spawned].
  rewrite requests_app, closes_app, sleeps_app, exits_app, spawned_app.
  rewrite Hr, Hc, He, lines_no_sleep, lines_spawned. cbn.
  repeat split; try lia. rewrite app_nil_r. apply dispatchOf_all_not_nil.
Qed.

(** *** The lines of a stream *)

Lemma takeBytes_all (data : string) (n : nat) :
  String.length data <= n -> takeBytes n data = data.
Proof.
  revert n. induction data as [|a data IH]; intros n Hn; [destruct n; reflexivity|].
  destruct n as [|n]; [simpl in Hn; lia|].
  cbn [takeBytes]. rewrite IH; [reflexivity|simpl in Hn; lia].
Qed.

Lemma dropBytes_all (data : string) :
  dropBytes (String.length data) data = EmptyString.
Proof. induction data as [|a data IH]; [reflexivity|exact IH]. Qed.

(** At the end of the stream [Scan] returns false. *)
Lemma Scan_end (s : Scanner) :
  unread s = EmptyString ->
  0 < maxTokenSize s ->
  Scan s = (false, stop s (srcErr s)).
Proof.
  intros Hu Hm. unfold Scan, seesEnd. rewrite Hu.
  replace (takeBytes (maxTokenSize s) EmptyString) with EmptyString
    by (destruct (maxTokenSize s); reflexivity).
  cbn [ScanLines andb IndexByte String.length].
  replace (0 <? maxTokenSize s)%nat with true
    by (symmetry; apply Nat.ltb_lt; exact Hm).
  reflexivity.
Qed.

(** What is left without a newline when the stream ends is one more
    token, unless nothing is left. *)
Lemma scanAll_last (s : Scanner) (last : string) :
  unread s = last ->
  IndexByte last LF = None ->
  String.length last < maxTokenSize s ->
  fst (scanAll s) =
  match last with
  | EmptyString => []
  | _ => [dropCR last]
  end.
Proof.
  intros Hu Hi Hn. rewrite scanAll_step.
  destruct last as [|a rest].
  - rewrite (Scan_end s Hu) by lia. reflexivity.
  - assert (Hs : Scan s =
                 (true, yield s (String.length (String a rest))
                          (dropCR (String a rest)))).
    { unfold Scan, seesEnd. rewrite Hu, takeBytes_all by lia.
      unfold ScanLines. rewrite Hi. cbn [andb].
      replace (String.length (String a rest) <? maxTokenSize s)%nat with true
        by (symmetry; apply Nat.ltb_lt; exact Hn).
      cbn [orb String.length Nat.eqb andb]. reflexivity. }
    rewrite Hs. cbn [fst]. rewrite scanAll_step, Scan_end.
    + reflexivity.
    + cbn [yield unread]. rewrite Hu. apply dropBytes_all.
    + cbn [yield maxTokenSize]. lia.
Qed.

(** X7. When the body is a sequence of lines, each ended by a newline and
    short enough for the buffer, followed by a last piece without a
    newline, the session handles every line in order with one trailing
    carriage return taken off, and then the last piece too unless it is
    empty: a last message is not lost for want of a newline. *)
Theorem session_lines_handled (g : Globals)
  (net : Request -> error + Response) (domain topic : string) (resp : Response)
  (ls : list string) (last : string) :
  ntfyDomain g = Some domain ->
  ntfyTopic g = Some topic ->
  urlError (URL (subscription domain topic (ntfyAuth g))) = None ->
  net (subscription domain topic (ntfyAuth g)) = inr resp ->
  StatusCode resp = StatusOK ->
  content (RespBody resp) = joinLines ls ++ last ->
  Forall (fun l => IndexByte l LF = None /\ String.length l < MaxScanTokenSize) ls ->
  IndexByte last LF = None ->
  String.length last < MaxScanTokenSize ->
  waitForNtfyMessage g net =
  (Done None,
   (ClientDo (subscription domain topic (ntfyAuth g))
    :: flat_map (lineEffects domain)
         (map dropCR ls
          ++ match last with
             | EmptyString => []
             | _ => [dropCR last]
             end)
    ++ [BodyScan; BodyClose])%list).
Proof.
  intros Hd Ht Hu Hn Hs Hc Hf Hi Hl.
  rewrite (session_streams g net domain topic Hd Ht resp Hu Hn Hs).
  destruct (scanAll_lines ls (NewScanner (RespBody resp)) last Hc Hf)
    as (s' & Hu' & Hm' & Ha).
  change (maxTokenSize (NewScanner (RespBody resp))) with MaxScanTokenSize in Hm'.
  rewrite <- Hm' in Hl.
  rewrite Ha. cbn [fst]. rewrite (scanAll_last s' last Hu' Hi Hl). reflexivity.
Qed.

(** *** The delivery, whatever the arguments *)

Lemma closeBody_counts (b : Body) :
  requests (effects (closeBody b)) = [] /\ closes (effects (closeBody b)) = 1.
Proof. unfold closeBody. destruct (closeErr b); split; reflexivity. Qed.

(** Either nothing happens, or the post is encoded and the request built. *)
Lemma sendToSlack_shape (g : Globals) (net : Request -> error + Response)
  (webhook : option slackMessage) :
  (effects (sendToSlack g net webhook) = []
   /\ ((exists err, result (sendToSlack g net webhook) = Done (Some err))
       \/ slackWebhookUrl g = None))
  \/ (exists (w : slackMessage) (jsonBytes url : string),
        webhook = Some w
        /\ json_Marshal w = inr jsonBytes
        /\ slackWebhookUrl g = Some url
        /\ urlError url = None).
Proof.
  destruct webhook as [w|];
    [|left; split; [reflexivity|left; eexists; reflexivity]].
  destruct (json_Marshal w) as [err|jsonBytes] eqn:Hj.
  { left. unfold sendToSlack. rewrite Hj.
    split; [reflexivity|left; eexists; reflexivity]. }
  destruct (slackWebhookUrl g) as [url|] eqn:Hw.
  2:{ left. unfold sendToSlack. rewrite Hj, Hw.
      split; [reflexivity|right; reflexivity]. }
  destruct (urlError url) as [err|] eqn:Hu.
  { left. unfold sendToSlack. rewrite Hj, Hw. unfold deref. rewrite bind_ret_l.
    unfold http_NewRequest. rewrite Hu.
    split; [reflexivity|left; eexists; reflexivity]. }
  right. exists w, jsonBytes, url. repeat split; assumption.
Qed.

(** X8. [sendToSlack] sends at most one request, whatever the network
    answers: there is no second try.  A request it sends is a POST to the
    URL the webhook pointer holds, with the one header Content-Type:
    application/json and the bytes [json.Marshal] gave as its body. *)
Theorem sendToSlack_one_post (g : Globals) (net : Request -> error + Response)
  (webhook : option slackMessage) :
  length (requests (effects (sendToSlack g net webhook))) <= 1
  /\ (forall req : Request,
        In req (requests (effects (sendToSlack g net webhook))) ->
        Method req = "POST"
        /\ Header req = [("Content-Type", "application/json")]
        /\ slackWebhookUrl g = Some (URL req)
        /\ exists (w : slackMessage) (payload : string),
             webhook = Some w
             /\ json_Marshal w = inr payload
             /\ Payload req = Some payload).
Proof.
  destruct (sendToSlack_shape g net webhook)
    as [[He _]|(w & jsonBytes & url & -> & Hj & Hw & Hu)].
  { rewrite He. split; [cbn; lia|]. intros req []. }
  rewrite (sendToSlack_sent g net w jsonBytes url Hj Hw Hu). cbv zeta.
  set (req0 := {| Method := "POST"; URL := url;
                  Header := [("Content-Type", "application/json")];
                  Payload := Some jsonBytes |}).
  assert (Hreq : requests
                   (effects
                      match net req0 with
                      | inl err => (Done (Some err), [ClientDo req0])
                      | inr resp =>
                          match readErr (RespBody resp) with
                          | Some err =>
                              (Done (Some err),
                               ([ClientDo req0; BodyReadAll;
                                 Log LevelError "error parsing body"
                                   [("err", VError err)]]
                                ++ effects (closeBody (RespBody resp)))%list)
                          | None =>
                              (Done (if (400 <=? StatusCode resp)%Z
                                     then Some (errors_New
                                                  ("error status code "
                                                   ++ FormatInt (StatusCode resp)))
                                     else None),
                               ([ClientDo req0; BodyReadAll;
                                 Log LevelDebug "slack response"
                                   [("status", VInt (StatusCode resp));
                                    ("body", VBytes (content (RespBody resp)))]]
                                ++ effects (closeBody (RespBody resp)))%list)
                          end
                      end) = [req0]).
  { destruct (net req0) as [err|resp]; [reflexivity|].
    destruct (closeBody_counts (RespBody resp)) as [Hr _].
    destruct (readErr (RespBody resp)); unfold effects at 1; cbn [snd];
      rewrite requests_app, Hr; reflexivity. }
  rewrite Hreq. split; [cbn; lia|].
  intros req [<-|[]]. repeat split; [exact Hw|].
  exists w, jsonBytes. repeat split. exact Hj.
Qed.

(** X9. Once a response has come back, [sendToSlack] closes its body
    exactly once, on the way out, whether the body could be read and
    whatever the status; an error of [Close] is logged and changes nothing
    in what the function returns.  Without a response it closes
    nothing. *)
Theorem sendToSlack_closes_body (g : Globals)
  (net : Request -> error + Response) (w : slackMessage)
  (jsonBytes url : string) :
  json_Marshal w = inr jsonBytes ->
  slackWebhookUrl g = Some url ->
  urlError url = None ->
  let req := {| Method := "POST"; URL := url;
                Header := [("Content-Type", "application/json")];
                Payload := Some jsonBytes |} in
  (forall err : error,
     net req = inl err -> closes (effects (sendToSlack g net (Some w))) = 0)
  /\ (forall resp : Response,
        net req = inr resp ->
        closes (effects (sendToSlack g net (Some w))) = 1
        /\ (exists t : list effect,
              effects (sendToSlack g net (Some w)) =
              (t ++ effects (closeBody (RespBody resp)))%list
              /\ closes t = 0)
        /\ (forall (e : option error) (net' : Request -> error + Response),
              net' req =
                inr {| StatusCode := StatusCode resp;
                       RespBody := withCloseErr (RespBody resp) e |} ->
              result (sendToSlack g net' (Some w)) =
              result (sendToSlack g net (Some w)))).
Proof.
  intros Hj Hw Hu req. split.
  - intros err Hn.
    rewrite (sendToSlack_sent g net w jsonBytes url Hj Hw Hu). cbv zeta.
    fold req. rewrite Hn. reflexivity.
  - intros resp Hn.
    destruct (closeBody_counts (RespBody resp)) as [_ Hc].
    split; [|split].
    + rewrite (sendToSlack_sent g net w jsonBytes url Hj Hw Hu). cbv zeta.
      fold req. rewrite Hn.
      destruct (readErr (RespBody resp)); unfold effects at 1; cbn [snd];
        rewrite closes_app, Hc; reflexivity.
    + rewrite (sendToSlack_sent g net w jsonBytes url Hj Hw Hu). cbv zeta.
      fold req. rewrite Hn.
      destruct (readErr (RespBody resp)); unfold effects at 1; cbn [snd];
        eexists; (split; [reflexivity|reflexivity]).
    + intros e net' Hn'.
      rewrite (sendToSlack_sent g net w jsonBytes url Hj Hw Hu).
      rewrite (sendToSlack_sent g net' w jsonBytes url Hj Hw Hu). cbv zeta.
      fold req. rewrite Hn, Hn'. cbn [RespBody StatusCode withCloseErr readErr].
      destruct (readErr (RespBody resp)); reflexivity.
Qed.

(** *** The process, turn after turn *)

(** The pointers [main] sets, by precedence: flag, environment, default. *)
Lemma globals_settings (p : Process) :
  globals p =
  {| ntfyDomain := Some (setting p "ntfy-domain" "NTFY_DOMAIN" upstreamNtfyServer);
     ntfyTopic := Some (setting p "ntfy-topic" "NTFY_TOPIC" "");
     ntfyAuth := Some (setting p "ntfy-auth" "NTFY_AUTH" "");
     slackWebhookUrl := Some (setting p "slack-webhook" "SLACK_WEBHOOK_URL" "") |}.
Proof. reflexivity. Qed.

Lemma session_requests (g : Globals) (net : Request -> error + Response)
  (domain topic : string) :
  ntfyDomain g = Some domain ->
  ntfyTopic g = Some topic ->
  requests (effects (waitForNtfyMessage g net)) =
    match urlError (URL (subscription domain topic (ntfyAuth g))) with
    | None => [subscription domain topic (ntfyAuth g)]
    | Some _ => []
    end
  /\ exits (effects (waitForNtfyMessage g net)) = [].
Proof.
  intros Hd Ht.
  destruct (session_cases g net domain topic Hd Ht)
    as [(err & Hu & H)|[(err & Hu & Hn & H)|[(resp & Hu & Hn & Hs & H)
        |(resp & Hu & Hn & Hs & H)]]]; rewrite H, Hu; unfold effects; cbn [snd];
    try (split; reflexivity).
  destruct (lines_counts domain (fst (scanAll (NewScanner (RespBody resp)))))
    as (Hr & _ & _ & He).
  cbn [requests exits]. rewrite requests_app, exits_app, Hr, He.
  split; reflexivity.
Qed.

Lemma iteration_requests (g : Globals) (net : Request -> error + Response)
  (domain topic : string) :
  ntfyDomain g = Some domain ->
  ntfyTopic g = Some topic ->
  requests (effects (iteration g net)) =
    match urlError (URL (subscription domain topic (ntfyAuth g))) with
    | None => [subscription domain topic (ntfyAuth g)]
    | Some _ => []
    end
  /\ exits (effects (iteration g net)) = [].
Proof.
  intros Hd Ht.
  destruct (iteration_sleeps g net domain topic Hd Ht) as (err & _ & Hi & _).
  destruct (session_requests g net domain topic Hd Ht) as [Hr He].
  rewrite Hi. unfold effects at 1 3. cbn [snd].
  rewrite requests_app, exits_app, Hr, He.
  destruct err; split; cbn [outcomeLog requests exits]; rewrite ?app_nil_r;
    reflexivity.
Qed.

Lemma turns_requests (g : Globals) (nets : nat -> Request -> error + Response)
  (domain topic : string) (n i : nat) :
  ntfyDomain g = Some domain ->
  ntfyTopic g = Some topic ->
  requests (flat_map (fun j => effects (iteration g (nets j))) (seq i n)) =
    match urlError (URL (subscription domain topic (ntfyAuth g))) with
    | None => repeat (subscription domain topic (ntfyAuth g)) n
    | Some _ => []
    end
  /\ exits (flat_map (fun j => effects (iteration g (nets j))) (seq i n)) = [].
Proof.
  intros Hd Ht. revert i. induction n as [|n IH]; intros i.
  - destruct (urlError _); split; reflexivity.
  - destruct (IH (S i)) as [Hr He].
    destruct (iteration_requests g (nets i) domain topic Hd Ht) as [Hr1 He1].
    cbn [seq flat_map]. rewrite requests_app, exits_app, Hr, He, Hr1, He1.
    destruct (urlError _); split; reflexivity.
Qed.

(** X10. A delivery started by a running process never panics: the pointer
    to the webhook URL is set by [main], so [sendToSlack] always returns,
    with nil or with an error. *)
Theorem sendToSlack_from_main_returns (p : Process)
  (net : Request -> error + Response) (webhook : option slackMessage) :
  exists err : option error,
    result (sendToSlack (globals p) net webhook) = Done err.
Proof.
  destruct (sendToSlack_shape (globals p) net webhook)
    as [[_ [(err & H)|H]]|(w & jsonBytes & url & -> & Hj & Hw & Hu)].
  - exists (Some err). exact H.
  - rewrite globals_settings in H. discriminate.
  - rewrite (sendToSlack_sent (globals p) net w jsonBytes url Hj Hw Hu). cbv zeta.
    match goal with |- context [net ?r] => destruct (net r) as [err|resp] end;
      [eexists; reflexivity|].
    destruct (readErr (RespBody resp)); eexists; reflexivity.
Qed.

(** X11. Every request of a running process is the same subscription
    request: a GET of https://{domain}/{topic}/json with the header
    Authorization: Bearer {auth}, where each of the three is the flag if it
    was given, else the environment variable, else the default ("ntfy.sh"
    for the domain, the empty string for the others).  After [n] turns
    there are [n] of them, one for each session, or none at all when
    [http.NewRequest] refuses the URL. *)
Theorem main_same_request (p : Process)
  (nets : nat -> Request -> error + Response) (n : nat) :
  flagV p = false ->
  let req :=
    subscription (setting p "ntfy-domain" "NTFY_DOMAIN" "ntfy.sh")
      (setting p "ntfy-topic" "NTFY_TOPIC" "")
      (Some (setting p "ntfy-auth" "NTFY_AUTH" "")) in
  requests (effects (main p nets n)) =
  match urlError (URL req) with
  | None => repeat req n
  | Some _ => []
  end.
Proof.
  intros Hv req. rewrite (main_loop p nets n Hv). unfold effects. cbn [snd requests].
  exact (proj1 (turns_requests (globals p) nets _ _ n 0 eq_refl eq_refl)).
Qed.


(** X13. A failure before the request is returned as it is and nothing is
    sent: the error of [json.Marshal] (even with a nil URL pointer, which
    is not looked at yet) and the error of [http.NewRequest].  A request
    goes out exactly when the argument is not nil, the encoding succeeds,
    the URL pointer is set and the URL is accepted. *)
Theorem sendToSlack_sends_iff (g : Globals) (net : Request -> error + Response)
  (webhook : option slackMessage) :
  (forall (w : slackMessage) (err : error),
     webhook = Some w -> json_Marshal w = inl err ->
     sendToSlack g net webhook = (Done (Some err), []))
  /\ (forall (w : slackMessage) (payload url : string) (err : error),
        webhook = Some w -> json_Marshal w = inr payload ->
        slackWebhookUrl g = Some url -> urlError url = Some err ->
        sendToSlack g net webhook = (Done (Some err), []))
  /\ (requests (effects (sendToSlack g net webhook)) <> [] <->
      exists (w : slackMessage) (payload url : string),
        webhook = Some w /\ json_Marshal w = inr payload
        /\ slackWebhookUrl g = Some url /\ urlError url = None).
Proof.
  split; [|split].
  - intros w err -> Hj. unfold sendToSlack. rewrite Hj. reflexivity.
  - intros w payload url err -> Hj Hw Hu. unfold sendToSlack.
    rewrite Hj, Hw. unfold deref. rewrite bind_ret_l.
    unfold http_NewRequest. rewrite Hu. reflexivity.
  - destruct (sendToSlack_shape g net webhook)
      as [[He Hres]|(w & jsonBytes & url & -> & Hj & Hw & Hu)].
    + rewrite He. split; [intros H; destruct (H eq_refl)|].
      intros (w & payload & url & -> & Hj & Hw & Hu). exfalso.
      pose proof (sendToSlack_sent g net w payload url Hj Hw Hu) as Hs.
      cbv zeta in Hs. rewrite Hs in He.
      match type of He with context [net ?r] => destruct (net r) as [e|resp] end;
        [discriminate|].
      destruct (readErr (RespBody resp)); discriminate.
    + split; [intros _; exists w, jsonBytes, url; repeat split; assumption|].
      intros _. rewrite (sendToSlack_sent g net w jsonBytes url Hj Hw Hu). cbv zeta.
      match goal with |- context [net ?r] => destruct (net r) as [e|resp] end;
        [discriminate|].
      destruct (readErr (RespBody resp)); discriminate.
Qed.

Lemma turns_spawned (g : Globals) (nets : nat -> Request -> error + Response)
  (domain topic : string) (n i : nat) :
  ntfyDomain g = Some domain ->
  ntfyTopic g = Some topic ->
  spawned (flat_map (fun j => effects (iteration g (nets j))) (seq i n)) =
  flat_map (fun j => spawned (effects (waitForNtfyMessage g (nets j)))) (seq i n).
Proof.
  intros Hd Ht. revert i. induction n as [|n IH]; intros i; [reflexivity|].
  cbn [seq flat_map]. rewrite spawned_app, IH. f_equal.
  destruct (iteration_sleeps g (nets i) domain topic Hd Ht) as (err & _ & Hi & _).
  rewrite Hi. unfold effects at 1. cbn [snd]. rewrite spawned_app.
  destruct err; cbn [outcomeLog spawned]; apply app_nil_r.
Qed.

(** X14. What a running process hands to [go sendToSlack] is what its
    sessions hand over, session after session: [main] itself starts no
    delivery, and a new session repeats nothing of the one before. *)
Theorem main_dispatches (p : Process)
  (nets : nat -> Request -> error + Response) (n : nat) :
  flagV p = false ->
  spawned (effects (main p nets n)) =
  flat_map (fun i => spawned (effects (waitForNtfyMessage (globals p) (nets i))))
    (seq 0 n).
Proof.
  intros Hv. rewrite (main_loop p nets n Hv). unfold effects at 1. cbn [snd spawned].
  exact (turns_spawned (globals p) nets _ _ n 0 eq_refl eq_refl).
Qed.

End Coverage.

(** ** Runs on the sample inputs *)

Example ScanLines_line :
  ScanLines ("ab" ++ newline ++ "cd") false = (3, Some "ab").
Proof. reflexivity. Qed.

Example ScanLines_crlf :
  ScanLines ("ab" ++ String CR newline) false = (4, Some "ab").
Proof. reflexivity. Qed.

Example ScanLines_more_data : ScanLines "ab" false = (0, None).
Proof. reflexivity. Qed.

Example ScanLines_last_line : ScanLines "ab" true = (2, Some "ab").
Proof. reflexivity. Qed.

(** The longest line the scanner takes has 65535 bytes before its
    newline. *)
Example Scan_longest_line :
  fst (Scan (NewScanner (streamOf (filler (MaxScanTokenSize - 1) ++ newline)))) = true
  /\ fst (Scan (NewScanner (streamOf (filler MaxScanTokenSize ++ newline)))) = false
  /\ ScannerErr
       (snd (Scan (NewScanner (streamOf (filler MaxScanTokenSize ++ newline)))))
     = Some ErrTooLong.
Proof. vm_compute. repeat split. Qed.

(** A last line of exactly 65536 bytes is a token only if the reader hands
    over its error together with the last bytes. *)
Example Scan_last_line_fills_buffer :
  fst (Scan (NewScanner (streamOf (filler MaxScanTokenSize)))) = false
  /\ fst (Scan (NewScanner
                  {| content := filler MaxScanTokenSize; readErr := None;
                     errWithData := true; closeErr := None |})) = true.
Proof. vm_compute. repeat split. Qed.

(** Scenario A: a message with a title. *)
Example scenarioA :
  waitForNtfyMessage (lib := sampleLibrary) sampleGlobals
    (answer 200 (streamOf (lineAlert ++ newline))) =
  (Done None,
   [ClientDo (subscription "ntfy.sh" "t" (Some ""));
    BodyScan;
    Log LevelInfo "sending message"
      [("title", VString "Alert"); ("message", VString "disk full")];
    Spawn (Some {| Text := "**Alert**: disk full" |});
    BodyScan; BodyClose]).
Proof. vm_compute. reflexivity. Qed.

(** Scenario B: a message without a title. *)
Example scenarioB :
  spawned (effects (waitForNtfyMessage (lib := sampleLibrary) sampleGlobals
                      (answer 200 (streamOf (linePing ++ newline))))) =
  [Some {| Text := "ping" |}].
Proof. vm_compute. reflexivity. Qed.

(** Scenario C: a keepalive. *)
Example scenarioC :
  waitForNtfyMessage (lib := sampleLibrary) sampleGlobals
    (answer 200 (streamOf (lineKeepalive ++ newline ++ linePing ++ newline))) =
  (Done None,
   [ClientDo (subscription "ntfy.sh" "t" (Some ""));
    BodyScan; Log LevelDebug "keepalive" [];
    BodyScan;
    Log LevelInfo "sending message"
      [("title", VString ""); ("message", VString "ping")];
    Spawn (Some {| Text := "ping" |});
    BodyScan; BodyClose]).
Proof. vm_compute. reflexivity. Qed.

(** Scenario D: the server answers 401. *)
Example scenarioD :
  iteration (lib := sampleLibrary) sampleGlobals (answer 401 (streamOf "")) =
  (Done tt,
   [ClientDo (subscription "ntfy.sh" "t" (Some ""));
    Log LevelError "invalid status code"
      [("expected", VInt 200); ("domain", VString "ntfy.sh");
       ("statusCode", VString "401")];
    Log LevelError "waitForNtfyMessage"
      [("err", VError (errors_New "invalid response code from ntfy"))];
    Sleep 30000000000]).
Proof. vm_compute. reflexivity. Qed.

(** Scenario E: the webhook answers 500. *)
Example scenarioE :
  result (sendToSlack (lib := sampleLibrary) sampleGlobals
            (answer 500 (streamOf "no")) (Some {| Text := "ping" |})) =
  Done (Some (errors_New "error status code 500")).
Proof. vm_compute. reflexivity. Qed.

(** A response that is refused is left as it came: its body is neither
    read nor closed. *)
Example refused_body_left_open :
  ~ In BodyClose
      (effects (waitForNtfyMessage (lib := sampleLibrary) sampleGlobals
                  (answer 401 (streamOf scenarioF)))).
Proof. vm_compute. intuition discriminate. Qed.

(** ** The properties on the sample inputs *)

Lemma C1_message_post_text_witness :
  exists post_text : string,
    spawned (effects (waitForNtfyMessage (lib := sampleLibrary) sampleGlobals
                        (answer 200 (streamOf scenarioF)))) =
      (spawned (flat_map (lineEffects (lib := sampleLibrary) "ntfy.sh") [])
       ++ Some {| Text := post_text |}
       :: spawned (flat_map (lineEffects (lib := sampleLibrary) "ntfy.sh")
                     [lineBroken; linePing]))%list
    /\ (Title msgAlert <> "" ->
        post_text = "**" ++ Title msgAlert ++ "**: " ++ Message msgAlert)
    /\ (Title msgAlert = "" -> post_text = Message msgAlert).
Proof.
  apply (C1_message_post_text (lib := sampleLibrary) sampleGlobals
           (answer 200 (streamOf scenarioF)) "ntfy.sh" "t" (streaming scenarioF)
           eq_refl eq_refl eq_refl eq_refl eq_refl
           [] [lineBroken; linePing] lineAlert msgAlert).
  - vm_compute. reflexivity.
  - vm_compute. reflexivity.
  - reflexivity.
Defined.

Lemma C3_undecodable_line_skipped_witness :
  spawned (effects (waitForNtfyMessage (lib := sampleLibrary) sampleGlobals
                      (answer 200 (streamOf scenarioF)))) =
  [Some {| Text := "**Alert**: disk full" |}; Some {| Text := "ping" |}].
Proof.
  destruct (C3_undecodable_line_skipped (lib := sampleLibrary) sampleGlobals
              (answer 200 (streamOf scenarioF)) "ntfy.sh" "t" (streaming scenarioF)
              eq_refl eq_refl eq_refl eq_refl eq_refl
              [lineAlert] [linePing] lineBroken
              (extern "unexpected end of JSON input"))
    as (_ & _ & H).
  - vm_compute. reflexivity.
  - vm_compute. reflexivity.
  - apply (H lineAlert linePing msgAlert msgPing); vm_compute; reflexivity.
Defined.

Lemma C4_other_events_not_dispatched_witness :
  spawned (effects (waitForNtfyMessage (lib := sampleLibrary) sampleGlobals
                      (answer 200 (streamOf quietStream)))) =
  (spawned (flat_map (lineEffects (lib := sampleLibrary) "ntfy.sh")
              [lineOpen; lineKeepalive])
   ++ spawned (flat_map (lineEffects (lib := sampleLibrary) "ntfy.sh") [linePing]))%list.
Proof.
  apply (C4_other_events_not_dispatched (lib := sampleLibrary) sampleGlobals
           (answer 200 (streamOf quietStream)) "ntfy.sh" "t" (streaming quietStream)
           eq_refl eq_refl eq_refl eq_refl eq_refl
           [lineOpen; lineKeepalive] [linePing] linePoll (eventOnly "poll_request")).
  - vm_compute. reflexivity.
  - vm_compute. reflexivity.
  - discriminate.
Defined.

Lemma C9_stream_end_returns_nil_witness :
  result (waitForNtfyMessage (lib := sampleLibrary) sampleGlobals
            (answer 200 (brokenStream scenarioF))) = Done None
  /\ waitForNtfyMessage (lib := sampleLibrary) sampleGlobals
       (answer 200 (brokenStream scenarioF)) =
     waitForNtfyMessage (lib := sampleLibrary) sampleGlobals
       (answer 200 (streamOf scenarioF)).
Proof.
  destruct (C9_stream_end_returns_nil (lib := sampleLibrary) sampleGlobals
              (answer 200 (streamOf scenarioF)) "ntfy.sh" "t" (streaming scenarioF)
              eq_refl eq_refl eq_refl eq_refl eq_refl)
    as (Hnil & _ & Hsame & _).
  pose proof (Hsame (Some (extern "unexpected EOF"))
                (answer 200 (brokenStream scenarioF)) eq_refl) as H.
  split; [rewrite H; exact Hnil|exact H].
Defined.

Lemma C10_oversized_line_ends_session_witness :
  waitForNtfyMessage (lib := sampleLibrary) sampleGlobals
    (answer 200 (streamOf oversized)) =
  (Done None,
   (ClientDo (subscription "ntfy.sh" "t" (Some ""))
    :: flat_map (lineEffects (lib := sampleLibrary) "ntfy.sh") (map dropCR [lineAlert])
    ++ [BodyScan; BodyClose])%list).
Proof.
  apply (C10_oversized_line_ends_session (lib := sampleLibrary) sampleGlobals
           (answer 200 (streamOf oversized)) "ntfy.sh" "t" (streaming oversized)
           eq_refl eq_refl eq_refl eq_refl eq_refl
           [lineAlert] (filler (S MaxScanTokenSize)) (newline ++ linePing ++ newline)).
  - reflexivity.
  - constructor; [|constructor]. split.
    + vm_compute. reflexivity.
    + apply Nat.ltb_lt. vm_compute. reflexivity.
  - vm_compute. reflexivity.
  - apply Nat.ltb_lt. vm_compute. reflexivity.
Defined.

Lemma C6_refused_status_witness :
  result (waitForNtfyMessage (lib := sampleLibrary) sampleGlobals
            (answer 401 (streamOf scenarioF))) =
    Done (Some (errors_New "invalid response code from ntfy"))
  /\ In (Log LevelError "invalid status code"
          [("expected", VInt StatusOK); ("domain", VString "ntfy.sh");
           ("statusCode", VString (FormatInt 401))])
       (effects (waitForNtfyMessage (lib := sampleLibrary) sampleGlobals
                   (answer 401 (streamOf scenarioF))))
  /\ Forall (fun e => readsBody e = false)
       (effects (waitForNtfyMessage (lib := sampleLibrary) sampleGlobals
                   (answer 401 (streamOf scenarioF)))).
Proof.
  apply (C6_refused_status (lib := sampleLibrary) sampleGlobals
           (answer 401 (streamOf scenarioF)) "ntfy.sh" "t"
           {| StatusCode := 401; RespBody := streamOf scenarioF |}
           eq_refl eq_refl eq_refl eq_refl).
  discriminate.
Defined.

(** C6 as it is written does not hold: no reading of the error gives the
    status back, since a 401 and a 500 fail with the same error. *)
Lemma C6_error_without_status :
  ~ (exists statusOf : error -> Z,
       forall code : Z,
         code <> StatusOK ->
         exists err : error,
           result (waitForNtfyMessage (lib := sampleLibrary) sampleGlobals
                     (answer code (streamOf ""))) = Done (Some err)
           /\ statusOf err = code).
Proof.
  intros (statusOf & H).
  destruct (H 401%Z) as (e1 & H1 & F1); [discriminate|].
  destruct (H 500%Z) as (e2 & H2 & F2); [discriminate|].
  vm_compute in H1, H2.
  assert (e1 = e2) by congruence. subst e2.
  rewrite F1 in F2. discriminate.
Qed.

Lemma C5_delivery_outcome_witness :
  result (sendToSlack (lib := sampleLibrary) sampleGlobals
            (answer 204 (streamOf "ok")) (Some {| Text := "ping" |})) = Done None
  /\ result (sendToSlack (lib := sampleLibrary) sampleGlobals
              unreachable (Some {| Text := "ping" |})) =
       Done (Some (extern "dial tcp: connection refused"))
  /\ result (sendToSlack (lib := sampleLibrary) sampleGlobals
              (answer 500 (streamOf "no")) (Some {| Text := "ping" |})) =
       Done (Some (errors_New ("error status code " ++ FormatInt 500))).
Proof.
  split; [|split].
  - destruct (C5_delivery_outcome (lib := sampleLibrary) sampleGlobals
                (answer 204 (streamOf "ok")) (Some {| Text := "ping" |}))
      as ([_ Hok] & _ & _).
    apply Hok. eexists. exists {| StatusCode := 204; RespBody := streamOf "ok" |}.
    split; [left; reflexivity|]. repeat split.
  - destruct (C5_delivery_outcome (lib := sampleLibrary) sampleGlobals
                unreachable (Some {| Text := "ping" |}))
      as (_ & Hconn & _).
    eapply Hconn; [left; reflexivity|reflexivity].
  - destruct (C5_delivery_outcome (lib := sampleLibrary) sampleGlobals
                (answer 500 (streamOf "no")) (Some {| Text := "ping" |}))
      as (_ & _ & Hresp).
    edestruct Hresp as (_ & _ & Hrej); [left; reflexivity|reflexivity|].
    apply Hrej; [reflexivity|discriminate].
Defined.

(** C5 as it is written does not hold: a response with status 500 whose
    body cannot be read makes the function return the read error, not the
    error that names the status. *)
Lemma C5_read_failure_hides_rejection :
  ~ (forall (net : Request -> error + Response) (resp : Response),
       (forall req, net req = inr resp) ->
       (400 <= StatusCode resp)%Z ->
       result (sendToSlack (lib := sampleLibrary) sampleGlobals net
                 (Some {| Text := "ping" |})) =
       Done (Some (errors_New
                     ("error status code " ++ FormatInt (StatusCode resp))))).
Proof.
  intros H.
  specialize (H (answer 500 (brokenStream ""))
                {| StatusCode := 500; RespBody := brokenStream "" |}
                (fun _ => eq_refl)).
  assert (Hge : (400 <= 500)%Z) by discriminate.
  specialize (H Hge). vm_compute in H. discriminate.
Qed.

Lemma C2_supervisory_loop_witness :
  result (main (lib := sampleLibrary) sampleProcess flaky 3) = Done (InLoop 3)
  /\ sleeps (effects (main (lib := sampleLibrary) sampleProcess flaky 3)) =
     [30000000000; 30000000000; 30000000000]%Z.
Proof.
  destruct (C2_supervisory_loop (lib := sampleLibrary) sampleProcess flaky 3 eq_refl)
    as (Hr & _ & _ & Hs).
  split; [exact Hr|exact Hs].
Defined.

Lemma C8_bearer_header_without_credential_witness :
  exists tail : list effect,
    effects (main (lib := sampleLibrary) sampleProcess flaky 1) =
    SetLogLevel LevelInfo
    :: ClientDo {| Method := "GET";
                   URL := "https://ntfy.sh/t/json";
                   Header := [("Authorization", "Bearer ")];
                   Payload := None |}
    :: tail.
Proof.
  destruct (C8_bearer_header_without_credential (lib := sampleLibrary)
              sampleProcess flaky eq_refl eq_refl eq_refl)
    as (domain & topic & Hd & Ht & _ & H).
  vm_compute in Hd, Ht.
  assert (domain = "ntfy.sh") by congruence.
  assert (topic = "t") by congruence. subst domain topic.
  exact (H eq_refl).
Defined.

(** ** The further properties on the sample inputs *)

Lemma session_nil_iff_ok_witness :
  result (waitForNtfyMessage (lib := sampleLibrary) sampleGlobals
            (answer 200 (streamOf scenarioF))) = Done None.
Proof.
  apply (proj1 (session_nil_iff_ok (lib := sampleLibrary) sampleGlobals
                  (answer 200 (streamOf scenarioF)) "ntfy.sh" "t" eq_refl eq_refl)).
  split; [reflexivity|]. exists (streaming scenarioF). split; reflexivity.
Defined.

Lemma session_bad_url_sends_nothing_witness :
  result (waitForNtfyMessage (lib := strictLibrary) spacedGlobals
            (answer 200 (streamOf scenarioF))) =
    Done (Some (extern "parse: invalid character in host name"))
  /\ requests (effects (waitForNtfyMessage (lib := strictLibrary) spacedGlobals
                          (answer 200 (streamOf scenarioF)))) = []
  /\ iteration (lib := strictLibrary) spacedGlobals
       (answer 200 (streamOf scenarioF)) =
     (Done tt,
      [Log LevelError "error getting ntfy response"
         [("err", VError (extern "parse: invalid character in host name"))];
       Log LevelError "waitForNtfyMessage"
         [("err", VError (extern "parse: invalid character in host name"))];
       Sleep 30000000000]).
Proof.
  apply (session_bad_url_sends_nothing (lib := strictLibrary) spacedGlobals
           (answer 200 (streamOf scenarioF)) "ntfy sh" "t"
           (extern "parse: invalid character in host name") eq_refl eq_refl).
  vm_compute. reflexivity.
Defined.

Lemma session_connection_error_witness :
  result (waitForNtfyMessage (lib := sampleLibrary) sampleGlobals unreachable) =
    Done (Some (extern "dial tcp: connection refused"))
  /\ requests (effects (waitForNtfyMessage (lib := sampleLibrary) sampleGlobals
                          unreachable)) =
       [subscription "ntfy.sh" "t" (Some "")]
  /\ iteration (lib := sampleLibrary) sampleGlobals unreachable =
     (Done tt,
      [ClientDo (subscription "ntfy.sh" "t" (Some ""));
       Log LevelError "error connecting to ntfy server"
         [("err", VError (extern "dial tcp: connection refused"))];
       Log LevelError "waitForNtfyMessage"
         [("err", VError (extern "dial tcp: connection refused"))];
       Sleep 30000000000]).
Proof.
  exact (session_connection_error (lib := sampleLibrary) sampleGlobals unreachable
           "ntfy.sh" "t" (extern "dial tcp: connection refused")
           eq_refl eq_refl eq_refl eq_refl).
Defined.

Lemma session_dispatch_order_witness :
  spawned (effects (waitForNtfyMessage (lib := sampleLibrary) sampleGlobals
                      (answer 200 (streamOf quietStream)))) =
    flat_map (dispatchOf (lib := sampleLibrary))
      (fst (scanAll (NewScanner (streamOf quietStream))))
  /\ length (spawned (effects (waitForNtfyMessage (lib := sampleLibrary)
                                sampleGlobals
                                (answer 200 (streamOf quietStream))))) =
     length (filter (isMessage (lib := sampleLibrary))
               (fst (scanAll (NewScanner (streamOf quietStream))))).
Proof.
  exact (session_dispatch_order (lib := sampleLibrary) sampleGlobals
           (answer 200 (streamOf quietStream)) "ntfy.sh" "t" (streaming quietStream)
           eq_refl eq_refl eq_refl eq_refl eq_refl).
Defined.

Lemma session_body_closed_once_witness :
  scans (effects (waitForNtfyMessage (lib := sampleLibrary) sampleGlobals
                    (answer 200 (streamOf scenarioF)))) =
    S (length (fst (scanAll (NewScanner (streamOf scenarioF)))))
  /\ closes (effects (waitForNtfyMessage (lib := sampleLibrary) sampleGlobals
                        (answer 200 (streamOf scenarioF)))) = 1.
Proof.
  destruct (session_body_closed_once (lib := sampleLibrary) sampleGlobals
              (answer 200 (streamOf scenarioF)) "ntfy.sh" "t" (streaming scenarioF)
              eq_refl eq_refl eq_refl eq_refl eq_refl)
    as (_ & Hs & Hc & _).
  split; [exact Hs|exact Hc].
Defined.

Lemma session_lines_handled_witness :
  waitForNtfyMessage (lib := sampleLibrary) sampleGlobals
    (answer 200 (streamOf windowsStream)) =
  (Done None,
   (ClientDo (subscription "ntfy.sh" "t" (Some ""))
    :: flat_map (lineEffects (lib := sampleLibrary) "ntfy.sh")
         (map dropCR [(lineAlert ++ String CR EmptyString)%string;
                      (lineKeepalive ++ String CR EmptyString)%string]
          ++ [dropCR linePing])
    ++ [BodyScan; BodyClose])%list).
Proof.
  apply (session_lines_handled (lib := sampleLibrary) sampleGlobals
           (answer 200 (streamOf windowsStream)) "ntfy.sh" "t"
           (streaming windowsStream)
           [(lineAlert ++ String CR EmptyString)%string;
            (lineKeepalive ++ String CR EmptyString)%string] linePing
           eq_refl eq_refl eq_refl eq_refl eq_refl eq_refl).
  - constructor; [|constructor; [|constructor]];
      (split; [vm_compute; reflexivity|apply Nat.ltb_lt; vm_compute; reflexivity]).
  - vm_compute. reflexivity.
  - apply Nat.ltb_lt. vm_compute. reflexivity.
Defined.

Lemma sendToSlack_closes_body_witness :
  closes (effects (sendToSlack (lib := sampleLibrary) sampleGlobals
                     (answer 500 (stuckBody "no")) (Some {| Text := "ping" |}))) = 1
  /\ result (sendToSlack (lib := sampleLibrary) sampleGlobals
               (answer 500 (stuckBody "no")) (Some {| Text := "ping" |})) =
     result (sendToSlack (lib := sampleLibrary) sampleGlobals
               (answer 500 (streamOf "no")) (Some {| Text := "ping" |})).
Proof.
  destruct (sendToSlack_closes_body (lib := sampleLibrary) sampleGlobals
              (answer 500 (streamOf "no")) {| Text := "ping" |}
              ("{" ++ jfield "text" (jstr "ping") ++ "}")
              "https://hooks.example/services/T0/B0/X0"
              eq_refl eq_refl eq_refl) as [_ H].
  destruct (H {| StatusCode := 500; RespBody := streamOf "no" |} eq_refl)
    as (_ & _ & Hsame).
  destruct (sendToSlack_closes_body (lib := sampleLibrary) sampleGlobals
              (answer 500 (stuckBody "no")) {| Text := "ping" |}
              ("{" ++ jfield "text" (jstr "ping") ++ "}")
              "https://hooks.example/services/T0/B0/X0"
              eq_refl eq_refl eq_refl) as [_ H'].
  destruct (H' {| StatusCode := 500; RespBody := stuckBody "no" |} eq_refl)
    as (Hc & _ & _).
  split; [exact Hc|].
  exact (Hsame (Some (extern "close: connection reset by peer"))
           (answer 500 (stuckBody "no")) eq_refl).
Defined.

Lemma main_same_request_witness :
  requests (effects (main (lib := sampleLibrary) flaggedProcess flaky 3)) =
  repeat (subscription "ntfy.sh" "alerts" (Some "tk_secret")) 3.
Proof.
  exact (main_same_request (lib := sampleLibrary) flaggedProcess flaky 3 eq_refl).
Defined.

Lemma main_dispatches_witness :
  spawned (effects (main (lib := sampleLibrary) sampleProcess flaky 2)) =
  flat_map (fun i => spawned (effects (waitForNtfyMessage (lib := sampleLibrary)
                                         (globals sampleProcess) (flaky i))))
    (seq 0 2).
Proof.
  exact (main_dispatches (lib := sampleLibrary) sampleProcess flaky 2 eq_refl).
Defined.

